(** * Blog backend: request handlers over a document store

    A shallow embedding of the Express handlers of [index.js] (the current
    variant, and the handlers of the earlier variants [part_000] and
    [part_001] where they differ) and of the [Post] schema of
    [models/Post.js].

    - JavaScript values are the inductive [value]; [undefined] is [None] in
      [option value].  Numbers are the integer-valued ones.
    - The document store is explicit state ([DB]): the user collection in
      insertion order, the post collection as a finite map from identities
      to documents, a document being a finite map from paths to values.
    - A store or library call that throws is [Throw]; each handler's
      [try { ... } catch] turns it into the 500 response.
    - What the JavaScript runtime and bcrypt compute (hashing, comparison,
      the Date constructor) is the class [Runtime]; the clock and the salt
      of one request are its [Env]. *)

From Stdlib Require Import ZArith.
From stdpp Require Import gmap strings list sorting.

Open Scope string_scope.
Set Warnings "-register-all".

(** ** JavaScript values *)

Definition ObjectId := positive.

Inductive value :=
| VNull
| VBool (b : bool)
| VNum (n : Z)
| VStr (s : string)
| VArr (l : list value)
| VObj (kvs : list (string * value))
| VId (i : ObjectId)
| VDate (t : Z)
| VInvalidDate.

(** [!x] is [negb (truthy x)]: undefined, null, false, 0 and the empty string
    are falsy, every other value is truthy. *)
Definition truthy (x : option value) : bool :=
  match x with
  | None | Some VNull => false
  | Some (VBool b) => b
  | Some (VNum n) => negb (n =? 0)%Z
  | Some (VStr s) => negb (String.eqb s "")
  | Some _ => true
  end.

Arguments truthy : simpl never.

(** [x || d] for a defined [d]. *)
Definition js_or (x : option value) (d : value) : value :=
  match x with
  | Some v => if truthy x then v else d
  | None => d
  end.


(** Own keys of an object value. *)
Definition obj_keys (v : value) : list string :=
  match v with
  | VObj kvs => kvs.*1
  | _ => []
  end.

(** ** Results of calls that may throw *)

Inductive result (A : Type) :=
| Ok (a : A)
| Throw.
Arguments Ok {A} a.
Arguments Throw {A}.

Definition bind {A B} (r : result A) (k : A -> result B) : result B :=
  match r with
  | Ok a => k a
  | Throw => Throw
  end.

Notation "x <- r ;; k" := (bind r (fun x => k))
  (at level 100, r at next level, right associativity).

(** ** Requests, responses, runtime *)

Record Request := mkRequest {
  (** [req.params.id] as the store reads it: [None] when the path segment is
      not an ObjectId. *)
  params_id : option ObjectId;
  query : gmap string value;
  headers : gmap string string;
  body : gmap string value
}.

Record Response := mkResponse {
  status : nat;
  payload : value
}.

(** [res.status(c).json({ error: msg })] and [res.status(c).json({ message: msg })] *)
Definition json_error (c : nat) (msg : string) : Response :=
  mkResponse c (VObj [("error", VStr msg)]).
Definition json_message (c : nat) (msg : string) : Response :=
  mkResponse c (VObj [("message", VStr msg)]).

Class Runtime := {
  (** [bcrypt.hash(data, rounds)] under the salt drawn for the call *)
  bcrypt_hash : string -> string -> nat -> string;
  (** [bcrypt.compare(data, encrypted)] *)
  bcrypt_compare : string -> string -> bool;
  (** the time value of [new Date(v)]: [None] for the Invalid Date *)
  Date_time : value -> option Z
}.

(** [new Date(v)] *)
Definition newDate `{Runtime} (v : value) : value :=
  match Date_time v with
  | Some t => VDate t
  | None => VInvalidDate
  end.

Record Env := mkEnv {
  now : Z;
  salt : string
}.

(** ** The document store *)

(** Modelled from the spec: the User schema ([models/User.js] is not among the
    sources).  A user has a store-assigned identity, the strings [username],
    [email] and [password] (the hash), the boolean [isAdmin] with default
    false, and the creation time the admin listing sorts by. *)
Module User.
Record t := mk {
  _id : ObjectId;
  username : string;
  email : string;
  password : string;
  isAdmin : bool;
  createdAt : Z
}.
End User.

(** The types of the paths of [postSchema] in [models/Post.js]. *)
Inductive SchemaType :=
| SString
| SMixed
| SDate
| SStringArray.

Definition postSchema : list (string * SchemaType) :=
  [ ("title", SString);
    ("content", SString);
    ("author", SMixed);
    ("category", SString);
    ("createdAt", SDate);
    ("updatedAt", SDate);
    ("thumbnail", SString);
    ("images", SStringArray);
    ("keywords", SString);
    ("subtitle", SString);
    ("authorGmail", SString) ].

(** Paths declared [required: true]. *)
Definition postRequired : list string := ["title"; "content"; "category"].

Record DB := mkDB {
  users : list User.t;
  posts : gmap ObjectId (gmap string value)
}.

(** *** Casting to the schema's types

    A string is read by a String path as it is.  Values of another type are
    treated as cast failures: the conversions Mongoose applies to some of
    them are not modelled, and requests are expected to carry strings. *)
Definition castString (v : value) : result string :=
  match v with
  | VStr s => Ok s
  | _ => Throw
  end.

(** The Boolean type reads [true], ['true'], [1], ['1'] and ['yes'] as true,
    [false], ['false'], [0], ['0'] and ['no'] as false, lets null through
    (rendered here as false; the registration handlers never pass null) and
    rejects every other value. *)
Definition castBoolean (v : value) : result bool :=
  match v with
  | VBool b => Ok b
  | VNum 1 => Ok true
  | VNum 0 => Ok false
  | VStr s =>
      if String.eqb s "true" || String.eqb s "1" || String.eqb s "yes" then Ok true
      else if String.eqb s "false" || String.eqb s "0" || String.eqb s "no" then Ok false
      else Throw
  | VNull => Ok false
  | _ => Throw
  end.

Definition is_string (v : value) : bool :=
  match v with
  | VStr _ => true
  | _ => false
  end.

Section Store.
Context `{Runtime}.

(** A Date path takes a Date as it is and builds one from any other value;
    the Invalid Date is a cast failure. *)
Definition castDate (v : value) : result value :=
  match v with
  | VDate t => Ok (VDate t)
  | VInvalidDate => Throw
  | _ => match newDate v with
         | VInvalidDate => Throw
         | d => Ok d
         end
  end.

(** Null passes every type; a Mixed path takes any value.  As for strings,
    only values that already have the type of the path are read: an array
    path takes an array of strings, and the wrapping and element casts of
    other values are not modelled. *)
Definition castValue (ty : SchemaType) (v : value) : result value :=
  match v, ty with
  | VNull, _ => Ok VNull
  | _, SMixed => Ok v
  | _, SString => s <- castString v ;; Ok (VStr s)
  | _, SDate => castDate v
  | VArr l, SStringArray => if forallb is_string l then Ok v else Throw
  | _, SStringArray => Throw
  end.

(** Reading an object against a schema (strict mode): the keys that are
    not paths of the schema are dropped, the others are cast.  Only plain
    fields are modelled: update operators such as [$set] and the implicit
    [_id] and [__v] paths are not, so the statements on updates are made
    for bodies of declared paths ([plain_update] below). *)
Fixpoint castPaths (schema : list (string * SchemaType))
    (obj : gmap string value) : result (gmap string value) :=
  match schema with
  | [] => Ok ∅
  | (p, ty) :: rest =>
      doc <- castPaths rest obj ;;
      match obj !! p with
      | None => Ok doc
      | Some v => v' <- castValue ty v ;; Ok (<[p := v']> doc)
      end
  end.
End Store.

(** The type the schema gives a path, if it declares it. *)
Fixpoint path_type (schema : list (string * SchemaType)) (k : string)
    : option SchemaType :=
  match schema with
  | [] => None
  | (p, ty) :: rest => if String.eqb p k then Some ty else path_type rest k
  end.

Definition is_ok {A} (r : result A) : bool :=
  match r with
  | Ok _ => true
  | Throw => false
  end.

(** *** Queries on users *)

(** [User.findOne({ email })], [User.findOne({ username })]: the first
    document, in the collection's order, whose path equals the value.  Only
    string filter values are modelled (a number, an array or an operator
    object such as [{ $ne: null }] is a cast failure here), so the
    statements on lookups are made for string values. *)
Definition User_findOne (path : User.t -> string) (v : value) (db : DB)
    : result (option User.t) :=
  s <- castString v ;;
  Ok (find (fun u => String.eqb (path u) s) (users db)).


(** [.sort({ createdAt: -1 })] *)
Definition newer_first (u v : User.t) : Prop :=
  (User.createdAt v <= User.createdAt u)%Z.

#[global] Instance newer_first_dec u v : Decision (newer_first u v).
Proof. unfold newer_first. apply _. Defined.


(** [user.save()] of a new document: appended under a fresh identity. *)
Definition fresh_user_id (db : DB) : ObjectId :=
  fresh (list_to_set (User._id <$> users db) : gset ObjectId).

Definition User_save (u : User.t) (db : DB) : DB :=
  mkDB (users db ++ [u]) (posts db).

(** *** Operations on posts *)

(** The [required] validator of a String path: a non-empty string. *)
Definition required_ok (x : option value) : bool :=
  match x with
  | Some (VStr s) => negb (String.eqb s "")
  | _ => false
  end.

(** The object literal handed to a model constructor: a property whose value
    is undefined is not set. *)
Fixpoint object_of (props : list (string * option value)) : gmap string value :=
  match props with
  | [] => ∅
  | (k, Some v) :: rest => <[k := v]> (object_of rest)
  | (_, None) :: rest => object_of rest
  end.

Section PostStore.
Context `{Runtime}.

(** The defaults of [postSchema]: [Date.now] for both dates, the empty
    array for [images]. *)
Definition postDefaults (env : Env) : gmap string value :=
  {[ "createdAt" := VDate (now env);
     "updatedAt" := VDate (now env);
     "images" := VArr [] ]}.

Definition fresh_post_id (db : DB) : ObjectId := fresh (dom (posts db)).

(** [new Post(obj)] followed by [post.save()]: the cast and the required
    validators decide whether the document is inserted. *)
Definition Post_save_new (obj : gmap string value) (env : Env) (db : DB)
    : result DB :=
  doc <- castPaths postSchema obj ;;
  if forallb (fun p => required_ok (doc !! p)) postRequired
  then Ok (mkDB (users db) (<[fresh_post_id db := doc ∪ postDefaults env]> (posts db)))
  else Throw.

(** [Post.findByIdAndUpdate(id, update, { new: true })]: the update's paths
    are set on the document with that identity; the result is the updated
    document, or null when there is none. *)
Definition Post_findByIdAndUpdate (id : option ObjectId)
    (update : gmap string value) (db : DB)
    : result (option (gmap string value) * DB) :=
  match id with
  | None => Throw
  | Some i =>
      upd <- castPaths postSchema update ;;
      match posts db !! i with
      | None => Ok (None, db)
      | Some doc =>
          let doc' := upd ∪ doc in
          Ok (Some doc', mkDB (users db) (<[i := doc']> (posts db)))
      end
  end.
End PostStore.

(** [Post.findByIdAndDelete(id)] *)
Definition Post_findByIdAndDelete (id : option ObjectId) (db : DB)
    : result (option (gmap string value) * DB) :=
  match id with
  | None => Throw
  | Some i =>
      match posts db !! i with
      | None => Ok (None, db)
      | Some doc => Ok (Some doc, mkDB (users db) (delete i (posts db)))
      end
  end.

(** An update made of paths of the Post schema only (no operator such as
    [$set], no [_id]). *)
Definition plain_update (update : gmap string value) : Prop :=
  map_Forall (fun k _ => is_Some (path_type postSchema k)) update.

#[global] Instance plain_update_dec update : Decision (plain_update update).
Proof. unfold plain_update. apply _. Defined.

(** A post document as [res.json] would send it. *)
Definition post_json (i : ObjectId) (doc : gmap string value) : value :=
  VObj (("_id", VId i) :: map_to_list doc).

(** *** bcrypt on JavaScript values: data that is not a string throws. *)
Section Bcrypt.
Context `{Runtime}.

Definition bcrypt_hash_call (env : Env) (data : value) (rounds : nat)
    : result string :=
  s <- castString data ;; Ok (bcrypt_hash (salt env) s rounds).

Definition bcrypt_compare_call (data : value) (encrypted : string)
    : result bool :=
  s <- castString data ;; Ok (bcrypt_compare s encrypted).
End Bcrypt.

(** [new User({ username, email, password, isAdmin })]: a value its path
    cannot read makes the later [save] throw.  Name and email are read as
    strings only (see [castString]). *)
Definition new_User (id : ObjectId) (name email : value) (hashed : string)
    (isAdmin : option value) (env : Env) : result User.t :=
  u <- castString name ;;
  e <- castString email ;;
  a <- match isAdmin with
       | Some v => castBoolean v
       | None => Ok false
       end ;;
  Ok (User.mk id u e hashed a (now env)).

(** The [user] object of the registration and login responses. *)
Definition user_summary (u : User.t) : value :=
  VObj [ ("id", VId (User._id u));
         ("username", VStr (User.username u));
         ("email", VStr (User.email u));
         ("isAdmin", VBool (User.isAdmin u)) ].

(** ** The handlers of [index.js]

    Each handler is named after its route: [post_api_login] is
    [app.post('/api/login', ...)].  A handler that writes returns the store
    it leaves. *)

Definition server_error : Response := json_error 500 "Server error.".

Section Handlers.
Context `{Runtime}.


(** [app.post('/api/register')] *)
Definition post_api_register (req : Request) (env : Env) (db : DB)
    : Response * DB :=
  let name := body req !! "name" in
  let email := body req !! "email" in
  let password := body req !! "password" in
  let isAdmin := body req !! "isAdmin" in
  if negb (truthy name) || negb (truthy email) || negb (truthy password)
  then (json_error 400 "All fields are required.", db)
  else
    match name, email, password with
    | Some name, Some email, Some password =>
        let attempt :=
          emailExist <- User_findOne User.email email db ;;
          if emailExist is Some _
          then Ok (json_error 400 "Email already registered.", db)
          else
            usernameExist <- User_findOne User.username name db ;;
            if usernameExist is Some _
            then Ok (json_error 400 "Username already taken.", db)
            else
              hashedPassword <- bcrypt_hash_call env password 10 ;;
              user <- new_User (fresh_user_id db) name email hashedPassword
                        (Some (js_or isAdmin (VBool false))) env ;;
              Ok (mkResponse 201
                    (VObj [ ("message", VStr "User registered successfully.");
                            ("user", user_summary user) ]),
                  User_save user db) in
        match attempt with
        | Ok r => r
        | Throw => (server_error, db)
        end
    | _, _, _ => (json_error 400 "All fields are required.", db)
    end.

(** [app.post('/api/login')] *)
Definition post_api_login (req : Request) (db : DB) : Response :=
  let email := body req !! "email" in
  let password := body req !! "password" in
  if negb (truthy email) || negb (truthy password)
  then json_error 400 "All fields are required."
  else
    match email, password with
    | Some email, Some password =>
        let attempt :=
          user <- User_findOne User.email email db ;;
          match user with
          | None =>
              Ok (json_error 401 "In                                                                         valid email or password.")
          | Some user =>
              isMatch <- bcrypt_compare_call password (User.password user) ;;
              if negb isMatch
              then Ok (json_error 401 "Invalid email or password.")
              else
                Ok (mkResponse 200
                      (VObj [ ("message", VStr "Login successful.");
                              ("user", user_summary user) ]))
          end in
        match attempt with
        | Ok r => r
        | Throw => server_error
        end
    | _, _ => json_error 400 "All fields are required."
    end.

(** [app.put('/api/posts/:id')] *)
Definition put_api_posts_id (req : Request) (db : DB) : Response * DB :=
  match Post_findByIdAndUpdate (params_id req) (body req) db with
  | Ok (None, db') => (json_error 404 "Post not found.", db')
  | Ok (Some post, db') => (json_message 200 "Post updated successfully.", db')
  | Throw => (server_error, db)
  end.

(** [app.delete('/api/posts/:id')] *)
Definition delete_api_posts_id (req : Request) (db : DB) : Response * DB :=
  match Post_findByIdAndDelete (params_id req) db with
  | Ok (None, db') => (json_error 404 "Post not found.", db')
  | Ok (Some post, db') => (json_message 200 "Post deleted successfully.", db')
  | Throw => (server_error, db)
  end.

(** The author of a new post: the identity of the user of that name, or
    the name itself. *)
Definition authorValue (authorDoc : option User.t) (author : value) : value :=
  match authorDoc with
  | Some u => VId (User._id u)
  | None => author
  end.

(** [app.post('/api/posts')] *)
Definition post_api_posts (req : Request) (env : Env) (db : DB)
    : Response * DB :=
  let title := body req !! "title" in
  let content := body req !! "content" in
  let author := body req !! "author" in
  let category := body req !! "category" in
  let createdAt := body req !! "createdAt" in
  let thumbnail := body req !! "thumbnail" in
  let images := body req !! "images" in
  let keywords := body req !! "keywords" in
  let subtitle := body req !! "subtitle" in
  let authorGmail := body req !! "authorGmail" in
  if negb (truthy title) || negb (truthy content)
     || negb (truthy author) || negb (truthy category)
  then (json_error 400 "Missing required fields.", db)
  else
    match author with
    | Some author =>
        let attempt :=
          authorDoc <- User_findOne User.username author db ;;
          db' <- Post_save_new
                   (object_of
                      [ ("title", title);
                        ("content", content);
                        ("author", Some (authorValue authorDoc author));
                        ("category", category);
                        ("createdAt",
                          if truthy createdAt then newDate <$> createdAt else None);
                        ("thumbnail", thumbnail);
                        ("images", images);
                        ("keywords", keywords);
                        ("subtitle", subtitle);
                        ("authorGmail", authorGmail) ])
                   env db ;;
          Ok (json_message 201 "Post created successfully.", db') in
        match attempt with
        | Ok r => r
        | Throw => (server_error, db)
        end
    | None => (json_error 400 "Missing required fields.", db)
    end.
End Handlers.

(** A creation body that carries the four required fields as non-empty
    strings and whose optional fields hold values their paths read. *)
Definition castable `{Runtime} (ty : SchemaType) (x : option value) : bool :=
  match x with
  | Some v => is_ok (castValue ty v)
  | None => true
  end.

Definition post_body_typed `{Runtime} (b : gmap string value) : bool :=
  required_ok (b !! "title") && required_ok (b !! "content")
  && required_ok (b !! "author") && required_ok (b !! "category")
  && castable SDate
       (if truthy (b !! "createdAt") then newDate <$> b !! "createdAt" else None)
  && castable SString (b !! "thumbnail")
  && castable SStringArray (b !! "images")
  && castable SString (b !! "keywords")
  && castable SString (b !! "subtitle")
  && castable SString (b !! "authorGmail").

(** ** The handlers of the earlier variants, where they differ *)

(** [part_000]: registration takes no admin flag and answers with a bare
    confirmation. *)
Module Part000.
Section Handlers.
Context `{Runtime}.

Definition post_api_register (req : Request) (env : Env) (db : DB)
    : Response * DB :=
  let name := body req !! "name" in
  let email := body req !! "email" in
  let password := body req !! "password" in
  if negb (truthy name) || negb (truthy email) || negb (truthy password)
  then (json_error 400 "All fields are required.", db)
  else
    match name, email, password with
    | Some name, Some email, Some password =>
        let attempt :=
          existingUser <- User_findOne User.email email db ;;
          if existingUser is Some _
          then Ok (json_error 400 "Email already registered.", db)
          else
            let saltRounds := 10 in
            hashedPassword <- bcrypt_hash_call env password saltRounds ;;
            user <- new_User (fresh_user_id db) name email hashedPassword
                      None env ;;
            Ok (json_message 201 "User registered successfully.",
                User_save user db) in
        match attempt with
        | Ok r => r
        | Throw => (server_error, db)
        end
    | _, _, _ => (json_error 400 "All fields are required.", db)
    end.
End Handlers.
End Part000.

(** [part_001]: registration checks the email only; both login failures
    carry one message. *)
Module Part001.
Section Handlers.
Context `{Runtime}.

Definition post_api_register (req : Request) (env : Env) (db : DB)
    : Response * DB :=
  let name := body req !! "name" in
  let email := body req !! "email" in
  let password := body req !! "password" in
  let isAdmin := body req !! "isAdmin" in
  if negb (truthy name) || negb (truthy email) || negb (truthy password)
  then (json_error 400 "All fields are required.", db)
  else
    match name, email, password with
    | Some name, Some email, Some password =>
        let attempt :=
          existingUser <- User_findOne User.email email db ;;
          if existingUser is Some _
          then Ok (json_error 400 "Email already registered.", db)
          else
            hashedPassword <- bcrypt_hash_call env password 10 ;;
            user <- new_User (fresh_user_id db) name email hashedPassword
                      (Some (js_or isAdmin (VBool false))) env ;;
            Ok (mkResponse 201
                  (VObj [ ("message", VStr "User registered successfully.");
                          ("user", user_summary user) ]),
                User_save user db) in
        match attempt with
        | Ok r => r
        | Throw => (server_error, db)
        end
    | _, _, _ => (json_error 400 "All fields are required.", db)
    end.

Definition post_api_login (req : Request) (db : DB) : Response :=
  let email := body req !! "email" in
  let password := body req !! "password" in
  if negb (truthy email) || negb (truthy password)
  then json_error 400 "All fields are required."
  else
    match email, password with
    | Some email, Some password =>
        let attempt :=
          user <- User_findOne User.email email db ;;
          match user with
          | None => Ok (json_error 401 "Invalid email or password.")
          | Some user =>
              isMatch <- bcrypt_compare_call password (User.password user) ;;
              if negb isMatch
              then Ok (json_error 401 "Invalid email or password.")
              else
                Ok (mkResponse 200
                      (VObj [ ("message", VStr "Login successful.");
                              ("user", user_summary user) ]))
          end in
        match attempt with
        | Ok r => r
        | Throw => server_error
        end
    | _, _ => json_error 400 "All fields are required."
    end.
End Handlers.
End Part001.

(** ** The other handlers of [index.js] *)

(** [user.name]: the modelled User schema declares no such path, so the
    property is undefined. *)
Definition User_name (u : User.t) : option value := None.

(** [x || y] where [y] may be undefined. *)
Definition js_or_undefined (x y : option value) : option value :=
  if truthy x then x else y.

(** [res.json] of an object literal: a property whose value is undefined is
    not serialised. *)
Fixpoint json_object (props : list (string * option value))
    : list (string * value) :=
  match props with
  | [] => []
  | (k, Some v) :: rest => (k, v) :: json_object rest
  | (_, None) :: rest => json_object rest
  end.

(** [app.get('/api/userinfo')] *)
Definition get_api_userinfo (req : Request) (db : DB) : Response :=
  let email := query req !! "email" in
  if negb (truthy email) then json_error 400 "Email required."
  else
    match email with
    | Some email =>
        match User_findOne User.email email db with
        | Ok None => json_error 404 "User not found."
        | Ok (Some user) =>
            mkResponse 200
              (VObj (json_object
                       [ ("username",
                           js_or_undefined (Some (VStr (User.username user)))
                             (User_name user));
                         ("email", Some (VStr (User.email user))) ]))
        | Throw => server_error
        end
    | None => json_error 400 "Email required."
    end.

(** [app.get('/api/posts')]: [Post.find({})], every document of the
    collection. *)
Definition get_api_posts (db : DB) : Response :=
  mkResponse 200 (VArr ((fun p => post_json p.1 p.2) <$> map_to_list (posts db))).

(** Modelled from the spec: the Feedback schema ([models/Feedback.js] is not
    among the sources): the strings [name], [email] and [message] and the
    date the server assigns.  The feedback collection is its own piece of
    state: no handler reads it together with users or posts. *)
Module Feedback.
Record t := mk {
  name : string;
  email : string;
  message : string;
  date : Z
}.
End Feedback.

Definition feedback_json (f : Feedback.t) : value :=
  VObj [ ("name", VStr (Feedback.name f));
         ("email", VStr (Feedback.email f));
         ("message", VStr (Feedback.message f));
         ("date", VDate (Feedback.date f)) ].

(** [new Feedback({ name, email, message, date: new Date() })] *)
Definition new_Feedback (name email message : value) (env : Env)
    : result Feedback.t :=
  n <- castString name ;;
  e <- castString email ;;
  m <- castString message ;;
  Ok (Feedback.mk n e m (now env)).

(** [app.post('/api/feedback')] *)
Definition post_api_feedback (req : Request) (env : Env)
    (feedback : list Feedback.t) : Response * list Feedback.t :=
  let name := body req !! "name" in
  let email := body req !! "email" in
  let message := body req !! "message" in
  if negb (truthy name) || negb (truthy email) || negb (truthy message)
  then (json_error 400 "All fields are required.", feedback)
  else
    match name, email, message with
    | Some name, Some email, Some message =>
        match new_Feedback name email message env with
        | Ok newFeedback =>
            (mkResponse 201
               (VObj [ ("success", VBool true);
                       ("message", VStr "Feedback submitted successfully.") ]),
             (feedback ++ [newFeedback])%list)
        | Throw => (server_error, feedback)
        end
    | _, _, _ => (json_error 400 "All fields are required.", feedback)
    end.

(** [app.get('/api/feedback')] *)
Definition get_api_feedback (feedback : list Feedback.t) : Response :=
  mkResponse 200 (VArr (feedback_json <$> feedback)).

(** ** Concrete runtime, stores and requests used to run the handlers *)

Definition demoRuntime : Runtime := {|
  bcrypt_hash := fun salt data _ => salt ++ "$" ++ data;
  bcrypt_compare := fun data encrypted =>
    String.eqb ("s$" ++ data) encrypted;
  Date_time := fun v => match v with VNum n => Some n | _ => None end
|}.

Definition demoEnv : Env := mkEnv 1700000000000%Z "s".

Definition alice : User.t :=
  User.mk 1%positive "alice" "alice@x.com" "s$secret" false 1000%Z.
Definition bob : User.t :=
  User.mk 2%positive "bob" "bob@x.com" "s$hunter2" true 2000%Z.

Definition noUsers : DB := mkDB [] ∅.
Definition twoUsers : DB := mkDB [alice; bob] ∅.

Definition bodyRequest (b : gmap string value) : Request :=
  mkRequest None ∅ ∅ b.
Definition idRequest (i : ObjectId) (b : gmap string value) : Request :=
  mkRequest (Some i) ∅ ∅ b.

Definition loginAliceWrong : Request :=
  bodyRequest {[ "email" := VStr "alice@x.com"; "password" := VStr "guess" ]}.

Definition registerBody (name email : string) (extra : gmap string value)
    : Request :=
  bodyRequest
    ({[ "name" := VStr name; "email" := VStr email;
        "password" := VStr "pw" ]} ∪ extra).

Definition registerCarol : Request := registerBody "carol" "carol@x.com" ∅.
Definition registerCarolAdmin : Request :=
  registerBody "carol" "carol@x.com" {[ "isAdmin" := VBool true ]}.
Definition registerCarolFalseString : Request :=
  registerBody "carol" "carol@x.com" {[ "isAdmin" := VStr "false" ]}.
Definition registerAliceEmail : Request :=
  registerBody "carol" "alice@x.com" ∅.

Definition guestPost : gmap string value :=
  {[ "title" := VStr "Hello"; "content" := VStr "First post";
     "author" := VStr "guest"; "category" := VStr "news";
     "createdAt" := VDate 5000%Z; "updatedAt" := VDate 5000%Z;
     "images" := VArr [] ]}.
Definition otherPost : gmap string value :=
  {[ "title" := VStr "Second"; "content" := VStr "More";
     "author" := VId 1%positive; "category" := VStr "misc";
     "createdAt" := VDate 6000%Z; "updatedAt" := VDate 6000%Z;
     "images" := VArr [] ]}.

Definition twoPosts : DB :=
  mkDB [alice; bob] {[ 7%positive := guestPost; 9%positive := otherPost ]}.

Definition setCategoryX : Request :=
  idRequest 7%positive {[ "category" := VStr "x" ]}.

Definition postBody (author : string) : gmap string value :=
  {[ "title" := VStr "Hi"; "content" := VStr "Text";
     "author" := VStr author; "category" := VStr "news" ]}.

Definition loginAlice : Request :=
  bodyRequest {[ "email" := VStr "alice@x.com"; "password" := VStr "secret" ]}.


Definition feedbackA : Request :=
  bodyRequest {[ "name" := VStr "A"; "email" := VStr "a@x.com";
                 "message" := VStr "hi" ]}.

Definition userinfoAlice : Request :=
  mkRequest None {[ "email" := VStr "alice@x.com" ]} ∅ ∅.

(** ** Properties *)

Lemma truthy_defined x : truthy x = true -> exists v, x = Some v.
Proof. destruct x as [v|]; [eauto | discriminate]. Qed.

Lemma truthy_str s : truthy (Some (VStr s)) = true <-> s <> "".
Proof.
  unfold truthy. rewrite negb_true_iff. split.
  - intros E ->. discriminate.
  - intros N. apply String.eqb_neq. exact N.
Qed.

Lemma find_elem {A} (f : A -> bool) (l : list A) x :
  x ∈ l -> f x = true -> exists y, find f l = Some y /\ y ∈ l /\ f y = true.
Proof.
  induction 1 as [x l | x z l Hin IH]; intros Hf; simpl.
  - rewrite Hf. exists x. split; [done | split; [left | done]].
  - destruct (f z) eqn:Hz.
    + exists z. split; [done | split; [left | done]].
    + destruct (IH Hf) as (y & ? & ? & ?). exists y. split; [done | split; [by right | done]].
Qed.

Lemma find_no_elem {A} (f : A -> bool) (l : list A) :
  (forall x, x ∈ l -> f x = false) -> find f l = None.
Proof.
  induction l as [|z l IH]; intros Hall; simpl; [done |].
  rewrite (Hall z) by left. apply IH. intros x Hx. apply Hall. by right.
Qed.

Section LoginProperties.
Context `{Runtime}.

(** The two failing runs of the current login handler, side by side: an
    unknown email and a wrong password both answer 401, each with the
    message its own branch spells. *)
Lemma post_api_login_failures req db e p :
  body req !! "email" = Some (VStr e) ->
  body req !! "password" = Some (VStr p) ->
  e <> "" -> p <> "" ->
  (find (fun u => String.eqb (User.email u) e) (users db) = None ->
     post_api_login req db =
       json_error 401 "In                                                                         valid email or password.")
  /\ (forall u,
        find (fun u => String.eqb (User.email u) e) (users db) = Some u ->
        bcrypt_compare p (User.password u) = false ->
        post_api_login req db = json_error 401 "Invalid email or password.").
Proof.
  intros He Hp Ne Np. unfold post_api_login. rewrite He, Hp.
  apply truthy_str in Ne, Np. rewrite Ne, Np. simpl.
  split.
  - intros ->. reflexivity.
  - intros u -> Hc. simpl. rewrite Hc. reflexivity.
Qed.

(** In [part_001] the same two runs are indistinguishable. *)
Lemma part001_login_failures_identical req db1 db2 e p u :
  body req !! "email" = Some (VStr e) ->
  body req !! "password" = Some (VStr p) ->
  e <> "" -> p <> "" ->
  find (fun u => String.eqb (User.email u) e) (users db1) = None ->
  find (fun u => String.eqb (User.email u) e) (users db2) = Some u ->
  bcrypt_compare p (User.password u) = false ->
  Part001.post_api_login req db1 = Part001.post_api_login req db2
  /\ status (Part001.post_api_login req db1) = 401.
Proof.
  intros He Hp Ne Np H1 H2 Hc. unfold Part001.post_api_login. rewrite He, Hp.
  apply truthy_str in Ne, Np. rewrite Ne, Np. simpl.
  rewrite H1, H2. simpl. rewrite Hc. done.
Qed.
End LoginProperties.

(** C1 (on the code): the same login request, run against a store without
    the email and against a store where the email exists and the password
    does not match, answers 401 both times, with two different bodies: the
    message of the unknown-email branch carries a run of spaces inside the
    word "Invalid". *)
Theorem login_failures_differ :
  let unknown := post_api_login (H := demoRuntime) loginAliceWrong noUsers in
  let mismatch := post_api_login (H := demoRuntime) loginAliceWrong twoUsers in
  status unknown = 401 /\ status mismatch = 401
  /\ payload mismatch = VObj [("error", VStr "Invalid email or password.")]
  /\ payload unknown <> payload mismatch.
Proof. vm_compute. repeat split; discriminate. Qed.

(** *** Deleting posts *)

(** C10: deleting an existing post answers 200 and removes that post and no
    other; deleting an identity without a post answers 404 and leaves the
    store as it was; the same request sent twice for an existing post
    answers 200, then 404. *)
Theorem delete_api_posts_id_spec req db i :
  params_id req = Some i ->
  (forall doc, posts db !! i = Some doc ->
     let r := delete_api_posts_id req db in
     r.1 = json_message 200 "Post deleted successfully."
     /\ users r.2 = users db
     /\ posts r.2 !! i = None
     /\ (forall j, j <> i -> posts r.2 !! j = posts db !! j)
     /\ delete_api_posts_id req r.2 = (json_error 404 "Post not found.", r.2))
  /\ (posts db !! i = None ->
      delete_api_posts_id req db = (json_error 404 "Post not found.", db)).
Proof.
  intros Hid. split.
  - intros doc Hdoc. unfold delete_api_posts_id, Post_findByIdAndDelete.
    rewrite !Hid, Hdoc. simpl.
    rewrite lookup_delete_eq. repeat split; try done.
    intros j Hj. by rewrite lookup_delete_ne.
  - intros Hnone. unfold delete_api_posts_id, Post_findByIdAndDelete.
    by rewrite Hid, Hnone.
Qed.

(** *** The admin listing *)


#[global] Instance newer_first_total : Total newer_first.
Proof. intros u v. unfold newer_first. lia. Qed.

#[global] Instance newer_first_trans : Transitive newer_first.
Proof. intros u v w. unfold newer_first. lia. Qed.



(** *** Registration *)

Lemma User_findOne_str path s db :
  User_findOne path (VStr s) db
  = Ok (find (fun u => String.eqb (path u) s) (users db)).
Proof. reflexivity. Qed.

Lemma find_by_path_elem (path : User.t -> string) s db u :
  u ∈ users db -> path u = s ->
  exists y, find (fun u => String.eqb (path u) s) (users db) = Some y.
Proof.
  intros Hin Hp.
  assert (Hf : String.eqb (path u) s = true) by (by apply String.eqb_eq).
  destruct (find_elem (fun u => String.eqb (path u) s) _ _ Hin Hf) as (y & Hy & _).
  eauto.
Qed.

(** Case analysis on the three presence checks of a registration or login
    body: a falsy field closes the goal by computation, a truthy one is a
    defined value. *)
Ltac presence x H :=
  let T := fresh "T" in
  destruct (truthy x) eqn:T; simpl;
  [ destruct (truthy_defined _ T) as [? H]; rewrite H in *
  | try done ].

Section RegistrationProperties.
Context `{Runtime}.

Lemma register_duplicate_email req env db e u :
  body req !! "email" = Some (VStr e) -> u ∈ users db -> User.email u = e ->
  let r := post_api_register req env db in status r.1 = 400 /\ r.2 = db.
Proof.
  intros He Hin Hu. unfold post_api_register. rewrite He.
  presence (body req !! "name") Hn.
  destruct (truthy (Some (VStr e))) eqn:Te; simpl; [| done].
  presence (body req !! "password") Hp.
  destruct (find_by_path_elem User.email e db u Hin Hu) as [y ->]. done.
Qed.

Lemma part000_register_duplicate_email req env db e u :
  body req !! "email" = Some (VStr e) -> u ∈ users db -> User.email u = e ->
  let r := Part000.post_api_register req env db in status r.1 = 400 /\ r.2 = db.
Proof.
  intros He Hin Hu. unfold Part000.post_api_register. rewrite He.
  presence (body req !! "name") Hn.
  destruct (truthy (Some (VStr e))) eqn:Te; simpl; [| done].
  presence (body req !! "password") Hp.
  destruct (find_by_path_elem User.email e db u Hin Hu) as [y ->]. done.
Qed.

Lemma part001_register_duplicate_email req env db e u :
  body req !! "email" = Some (VStr e) -> u ∈ users db -> User.email u = e ->
  let r := Part001.post_api_register req env db in status r.1 = 400 /\ r.2 = db.
Proof.
  intros He Hin Hu. unfold Part001.post_api_register. rewrite He.
  presence (body req !! "name") Hn.
  destruct (truthy (Some (VStr e))) eqn:Te; simpl; [| done].
  presence (body req !! "password") Hp.
  destruct (find_by_path_elem User.email e db u Hin Hu) as [y ->]. done.
Qed.

Lemma register_duplicate_username req env db n e u :
  body req !! "name" = Some (VStr n) -> body req !! "email" = Some (VStr e) ->
  u ∈ users db -> User.username u = n ->
  let r := post_api_register req env db in status r.1 = 400 /\ r.2 = db.
Proof.
  intros Hn He Hin Hu. unfold post_api_register. rewrite Hn, He.
  destruct (truthy (Some (VStr n))) eqn:Tn; simpl; [| done].
  destruct (truthy (Some (VStr e))) eqn:Te; simpl; [| done].
  presence (body req !! "password") Hp.
  destruct (find _ (users db)); [done |].
  destruct (find_by_path_elem User.username n db u Hin Hu) as [y ->]. done.
Qed.

Lemma register_missing_field req env db :
  truthy (body req !! "name") = false
  \/ truthy (body req !! "email") = false
  \/ truthy (body req !! "password") = false ->
  post_api_register req env db = (json_error 400 "All fields are required.", db)
  /\ Part000.post_api_register req env db
     = (json_error 400 "All fields are required.", db)
  /\ Part001.post_api_register req env db
     = (json_error 400 "All fields are required.", db).
Proof.
  intros Hm.
  unfold post_api_register, Part000.post_api_register, Part001.post_api_register.
  destruct Hm as [-> | [-> | ->]]; simpl; rewrite ?orb_true_r; done.
Qed.

(** What a 201 of the current registration handler means: three strings were
    supplied, the Boolean type read the admin flag, and the user built from
    them was appended and summarised in the answer. *)
Lemma register_created req env db :
  let r := post_api_register req env db in
  status r.1 = 201 ->
  exists n e p a,
    body req !! "name" = Some (VStr n)
    /\ body req !! "email" = Some (VStr e)
    /\ body req !! "password" = Some (VStr p)
    /\ castBoolean (js_or (body req !! "isAdmin") (VBool false)) = Ok a
    /\ let u := User.mk (fresh_user_id db) n e
                  (bcrypt_hash (salt env) p 10) a (now env) in
       r = (mkResponse 201
              (VObj [ ("message", VStr "User registered successfully.");
                      ("user", user_summary u) ]),
            User_save u db).
Proof.
  unfold post_api_register.
  presence (body req !! "name") Hn.
  presence (body req !! "email") He.
  presence (body req !! "password") Hp.
  destruct x0; simpl; try done.
  destruct (find _ (users db)); [done |].
  destruct x; simpl; try done.
  destruct (find _ (users db)); [done |].
  destruct x1; simpl; try done.
  unfold new_User; simpl.
  destruct (castBoolean _) as [a|] eqn:Ha; simpl; [| done].
  intros _. eauto 10.
Qed.

Lemma part001_register_created req env db :
  let r := Part001.post_api_register req env db in
  status r.1 = 201 ->
  exists n e p a,
    body req !! "name" = Some (VStr n)
    /\ body req !! "email" = Some (VStr e)
    /\ body req !! "password" = Some (VStr p)
    /\ castBoolean (js_or (body req !! "isAdmin") (VBool false)) = Ok a
    /\ let u := User.mk (fresh_user_id db) n e
                  (bcrypt_hash (salt env) p 10) a (now env) in
       r = (mkResponse 201
              (VObj [ ("message", VStr "User registered successfully.");
                      ("user", user_summary u) ]),
            User_save u db).
Proof.
  unfold Part001.post_api_register.
  presence (body req !! "name") Hn.
  presence (body req !! "email") He.
  presence (body req !! "password") Hp.
  destruct x0; simpl; try done.
  destruct (find _ (users db)); [done |].
  destruct x1; simpl; try done.
  unfold new_User.
  destruct x; simpl; try done.
  destruct (castBoolean _) as [a|] eqn:Ha; simpl; [| done].
  intros _. eauto 10.
Qed.
End RegistrationProperties.

(** C5: a registration whose email is the email of a stored user answers
    400 and leaves the store as it was, in every variant; in the current
    variant so does one whose name is a stored username; and a request in
    which name, email or password is missing answers 400 in every variant. *)
Theorem register_rejects_duplicates `{Runtime} req env db :
  (forall e u,
     body req !! "email" = Some (VStr e) -> u ∈ users db -> User.email u = e ->
     (let r := post_api_register req env db in status r.1 = 400 /\ r.2 = db)
     /\ (let r := Part000.post_api_register req env db in
         status r.1 = 400 /\ r.2 = db)
     /\ (let r := Part001.post_api_register req env db in
         status r.1 = 400 /\ r.2 = db))
  /\ (forall n e u,
        body req !! "name" = Some (VStr n) ->
        body req !! "email" = Some (VStr e) ->
        u ∈ users db -> User.username u = n ->
        let r := post_api_register req env db in status r.1 = 400 /\ r.2 = db)
  /\ (truthy (body req !! "name") = false
       \/ truthy (body req !! "email") = false
       \/ truthy (body req !! "password") = false ->
      post_api_register req env db
        = (json_error 400 "All fields are required.", db)
      /\ Part000.post_api_register req env db
         = (json_error 400 "All fields are required.", db)
      /\ Part001.post_api_register req env db
         = (json_error 400 "All fields are required.", db)).
Proof.
  split; [| split].
  - intros e u He Hin Hu. split; [| split].
    + by apply (register_duplicate_email req env db e u).
    + by apply (part000_register_duplicate_email req env db e u).
    + by apply (part001_register_duplicate_email req env db e u).
  - intros n e u Hn He Hin Hu.
    by apply (register_duplicate_username req env db n e u).
  - apply register_missing_field.
Qed.

Lemma register_rejects_duplicates_witness :
  status (post_api_register (H := demoRuntime) registerAliceEmail demoEnv twoUsers).1
  = 400.
Proof.
  destruct (register_rejects_duplicates (H := demoRuntime)
              registerAliceEmail demoEnv twoUsers) as [Hdup _].
  destruct (Hdup "alice@x.com" alice) as [[Hs _] _].
  - reflexivity.
  - left.
  - reflexivity.
  - exact Hs.
Defined.

(** C6 (on the code): in [part_000] a successful registration answers 201
    with a bare confirmation: the body has the single key [message] and is
    not a user summary. *)
Lemma part000_register_answers_message_only :
  let r := Part000.post_api_register (H := demoRuntime)
             registerCarol demoEnv noUsers in
  status r.1 = 201
  /\ obj_keys (payload r.1) = ["message"]
  /\ forall u,
       payload r.1 <> VObj [ ("message", VStr "User registered successfully.");
                             ("user", user_summary u) ].
Proof. vm_compute. repeat split. intros u. discriminate. Qed.

(** C6 (amended): in the current variant and in [part_001], a registration
    that answers 201 has appended one user, and its body is the
    confirmation message with the summary of that user: its id, username,
    email and isAdmin, and no other path, so neither the hash nor the
    password; in [part_000] the 201 body is the confirmation message
    alone. *)
Theorem register_success_body `{Runtime} req env db :
  (forall r,
     r = post_api_register req env db
     \/ r = Part001.post_api_register req env db ->
     status r.1 = 201 ->
     exists u,
       r.2 = User_save u db
       /\ payload r.1
          = VObj [ ("message", VStr "User registered successfully.");
                   ("user", user_summary u) ]
       /\ obj_keys (payload r.1) = ["message"; "user"]
       /\ obj_keys (user_summary u) = ["id"; "username"; "email"; "isAdmin"])
  /\ (status (Part000.post_api_register req env db).1 = 201 ->
      payload (Part000.post_api_register req env db).1
      = VObj [ ("message", VStr "User registered successfully.") ]).
Proof.
  split.
  - intros r [-> | ->] Hs.
    + destruct (register_created req env db Hs) as (n & e & p & a & _ & _ & _ & _ & ->).
      eexists. repeat split.
    + destruct (part001_register_created req env db Hs)
        as (n & e & p & a & _ & _ & _ & _ & ->).
      eexists. repeat split.
  - unfold Part000.post_api_register.
    presence (body req !! "name") Hn.
    presence (body req !! "email") He.
    presence (body req !! "password") Hp.
    destruct x0; simpl; try done.
    destruct (find _ (users db)); [done |].
    destruct x1; simpl; try done.
    unfold new_User.
    destruct x; simpl; try done.
Qed.

Lemma register_success_body_witness :
  exists u,
    let r := post_api_register (H := demoRuntime) registerCarol demoEnv twoUsers in
    r.2 = User_save u twoUsers
    /\ payload r.1
       = VObj [ ("message", VStr "User registered successfully.");
                ("user", user_summary u) ].
Proof.
  destruct (register_success_body (H := demoRuntime)
              registerCarol demoEnv twoUsers) as [Hnew _].
  destruct (Hnew _ (or_introl eq_refl)) as (u & Hsave & Hbody & _).
  - reflexivity.
  - exists u. split; [exact Hsave | exact Hbody].
Defined.

(** C8 (on the code): the string ['false'] is truthy, and a registration
    that carries it as its admin flag is stored with isAdmin false. *)
Lemma register_truthy_flag_stored_false :
  let r := post_api_register (H := demoRuntime)
             registerCarolFalseString demoEnv noUsers in
  truthy (body registerCarolFalseString !! "isAdmin") = true
  /\ status r.1 = 201
  /\ User.isAdmin <$> users r.2 = [false].
Proof. vm_compute. done. Qed.

Section UnreadableFlag.
Context `{Runtime}.

(** A registration that does not answer 201 leaves the store as it was. *)
Lemma register_not_created req env db :
  status (post_api_register req env db).1 <> 201 ->
  (post_api_register req env db).2 = db.
Proof.
  unfold post_api_register.
  presence (body req !! "name") Hn.
  presence (body req !! "email") He.
  presence (body req !! "password") Hp.
  destruct x0; simpl; try done.
  match goal with |- context [if find ?f ?l is Some _ then _ else _] =>
    destruct (find f l) end; [done |].
  destruct x; simpl; try done.
  match goal with |- context [if find ?f ?l is Some _ then _ else _] =>
    destruct (find f l) end; [done |].
  destruct x1; simpl; try done.
  unfold new_User; simpl.
  destruct (castBoolean _); simpl; done.
Qed.

Lemma part001_register_not_created req env db :
  status (Part001.post_api_register req env db).1 <> 201 ->
  (Part001.post_api_register req env db).2 = db.
Proof.
  unfold Part001.post_api_register.
  presence (body req !! "name") Hn.
  presence (body req !! "email") He.
  presence (body req !! "password") Hp.
  destruct x0; simpl; try done.
  match goal with |- context [if find ?f ?l is Some _ then _ else _] =>
    destruct (find f l) end; [done |].
  destruct x1; simpl; try done.
  unfold new_User.
  destruct x; simpl; try done.
  destruct (castBoolean _); simpl; done.
Qed.

(** A registration that would otherwise be stored, carrying a flag the
    Boolean type cannot read, takes the catch branch. *)
Lemma register_unreadable_flag req env db n e p :
  body req !! "name" = Some (VStr n) ->
  body req !! "email" = Some (VStr e) ->
  body req !! "password" = Some (VStr p) ->
  n <> "" -> e <> "" -> p <> "" ->
  find (fun u => String.eqb (User.email u) e) (users db) = None ->
  castBoolean (js_or (body req !! "isAdmin") (VBool false)) = Throw ->
  (find (fun u => String.eqb (User.username u) n) (users db) = None ->
   post_api_register req env db = (server_error, db))
  /\ Part001.post_api_register req env db = (server_error, db).
Proof.
  intros Hn He Hp Nn Ne Np Hfe Hthrow.
  unfold post_api_register, Part001.post_api_register. rewrite Hn, He, Hp.
  apply truthy_str in Nn, Ne, Np. rewrite Nn, Ne, Np. simpl.
  rewrite Hfe. simpl. unfold new_User. simpl. rewrite Hthrow. simpl.
  split; [| done]. by intros ->.
Qed.
End UnreadableFlag.

(** C8 (amended): in the current variant and in [part_001], the isAdmin of a
    registered user is what the Boolean type of the path reads from
    [isAdmin || false]: true when the caller sent [true], ['true'], [1],
    ['1'] or ['yes'], false when the flag is absent or falsy and for the
    truthy strings ['false'], ['0'] and ['no']; the caller's value alone
    decides it.  A flag the Boolean type cannot read is never stored: the
    store stays as it was, and a request that would otherwise register
    (non-empty strings, email and username not taken) is answered 500. *)
Theorem register_isAdmin_caller_supplied `{Runtime} req env db r :
  r = post_api_register req env db
  \/ r = Part001.post_api_register req env db ->
  (status r.1 = 201 ->
   exists u : User.t,
     users r.2 = (users db ++ [u])%list
     /\ castBoolean (js_or (body req !! "isAdmin") (VBool false))
        = Ok (User.isAdmin u)
     /\ (body req !! "isAdmin" = Some (VBool true) -> User.isAdmin u = true)
     /\ (truthy (body req !! "isAdmin") = false -> User.isAdmin u = false)
     /\ (forall v, body req !! "isAdmin" = Some v ->
           v ∈ [VStr "true"; VNum 1; VStr "1"; VStr "yes"] ->
           User.isAdmin u = true)
     /\ (forall v, body req !! "isAdmin" = Some v ->
           v ∈ [VStr "false"; VStr "0"; VStr "no"] ->
           User.isAdmin u = false))
  /\ (castBoolean (js_or (body req !! "isAdmin") (VBool false)) = Throw ->
      r.2 = db
      /\ status r.1 <> 201
      /\ forall n e p,
           body req !! "name" = Some (VStr n) ->
           body req !! "email" = Some (VStr e) ->
           body req !! "password" = Some (VStr p) ->
           n <> "" -> e <> "" -> p <> "" ->
           find (fun u => String.eqb (User.email u) e) (users db) = None ->
           find (fun u => String.eqb (User.username u) n) (users db) = None ->
           r = (server_error, db)).
Proof.
  intros Hr.
  assert (Hcreated : status r.1 = 201 ->
            exists n e p a,
              castBoolean (js_or (body req !! "isAdmin") (VBool false)) = Ok a
              /\ r = (mkResponse 201
                        (VObj [ ("message", VStr "User registered successfully.");
                                ("user", user_summary
                                   (User.mk (fresh_user_id db) n e
                                      (bcrypt_hash (salt env) p 10) a (now env))) ]),
                      User_save (User.mk (fresh_user_id db) n e
                                   (bcrypt_hash (salt env) p 10) a (now env)) db)).
  { intros Hs. destruct Hr as [-> | ->].
    - destruct (register_created req env db Hs) as (n & e & p & a & _ & _ & _ & ? & ?).
      eauto 10.
    - destruct (part001_register_created req env db Hs)
        as (n & e & p & a & _ & _ & _ & ? & ?).
      eauto 10. }
  split.
  - intros Hs. destruct (Hcreated Hs) as (n & e & p & a & Ha & ->).
    eexists. split; [reflexivity |]. simpl. split; [exact Ha |].
    split; [| split; [| split]].
    + intros Hv. rewrite Hv in Ha. by injection Ha.
    + intros Hf. unfold js_or in Ha. rewrite Hf in Ha.
      destruct (body req !! "isAdmin"); by injection Ha.
    + intros v Hv Hin. rewrite Hv in Ha.
      repeat (apply elem_of_cons in Hin as [-> | Hin]); try (by injection Ha).
      by apply elem_of_nil in Hin.
    + intros v Hv Hin. rewrite Hv in Ha.
      repeat (apply elem_of_cons in Hin as [-> | Hin]); try (by injection Ha).
      by apply elem_of_nil in Hin.
  - intros Hthrow.
    assert (Hne : status r.1 <> 201).
    { intros Hs. destruct (Hcreated Hs) as (n & e & p & a & Ha & _). congruence. }
    split; [| split; [exact Hne |]].
    + destruct Hr as [-> | ->];
        [by apply register_not_created | by apply part001_register_not_created].
    + intros n e p Hn He Hp Nn Ne Np Hfe Hfn.
      destruct (register_unreadable_flag req env db n e p Hn He Hp Nn Ne Np Hfe Hthrow)
        as [Hcur Hold].
      destruct Hr as [-> | ->]; [by apply Hcur | exact Hold].
Qed.

Lemma register_isAdmin_caller_supplied_witness :
  User.isAdmin <$>
    users (post_api_register (H := demoRuntime)
             registerCarolAdmin demoEnv noUsers).2
  = [true]
  /\ post_api_register (H := demoRuntime)
       (registerBody "carol" "carol@x.com" {[ "isAdmin" := VStr "maybe" ]})
       demoEnv noUsers
     = (server_error, noUsers).
Proof.
  split.
  - destruct (register_isAdmin_caller_supplied (H := demoRuntime)
                registerCarolAdmin demoEnv noUsers _ (or_introl eq_refl))
      as [Hstored _].
    destruct Hstored as (u & Hu & _ & Htrue & _); [reflexivity |].
    rewrite Hu. simpl. rewrite Htrue; reflexivity.
  - destruct (register_isAdmin_caller_supplied (H := demoRuntime)
                (registerBody "carol" "carol@x.com" {[ "isAdmin" := VStr "maybe" ]})
                demoEnv noUsers _ (or_introl eq_refl))
      as [_ Hunread].
    destruct Hunread as (_ & _ & H500); [reflexivity |].
    apply (H500 "carol" "carol@x.com" "pw"); try reflexivity; discriminate.
Defined.

(** *** Reading an object against the Post schema *)

Section CastProperties.
Context `{Runtime}.

(** A cast document holds, at each path the schema declares and the object
    sets, the cast of the object's value, and nothing else. *)
Lemma castPaths_lookup schema obj doc k :
  castPaths schema obj = Ok doc ->
  match path_type schema k, obj !! k with
  | Some ty, Some v => exists v', castValue ty v = Ok v' /\ doc !! k = Some v'
  | _, _ => doc !! k = None
  end.
Proof.
  revert doc. induction schema as [|[p ty] rest IH]; intros doc; simpl.
  - intros [= <-]. by rewrite lookup_empty.
  - destruct (castPaths rest obj) as [doc0|] eqn:Hrest; simpl; [| done].
    specialize (IH doc0 eq_refl).
    destruct (String.eqb_spec p k) as [-> | Hne].
    + destruct (obj !! k) as [v|] eqn:Hv.
      * destruct (castValue ty v) as [v'|] eqn:Hc; simpl; [| done].
        intros [= <-]. exists v'. by rewrite lookup_insert_eq.
      * intros [= <-]. by destruct (path_type rest k).
    + destruct (obj !! p) as [vp|] eqn:Hvp.
      * destruct (castValue ty vp) as [vp'|]; simpl; [| done].
        intros [= <-]. rewrite lookup_insert_ne by done. exact IH.
      * intros [= <-]. exact IH.
Qed.

(** The cast succeeds as soon as each declared path that the object sets
    holds a value its type can read. *)
Lemma castPaths_ok schema obj :
  (forall k ty v, (k, ty) ∈ schema -> obj !! k = Some v ->
     is_ok (castValue ty v) = true) ->
  exists doc, castPaths schema obj = Ok doc.
Proof.
  induction schema as [|[p ty] rest IH]; intros Hall; simpl; [eauto |].
  destruct IH as [doc0 ->].
  { intros k ty' v Hin. apply Hall. by right. }
  simpl. destruct (obj !! p) as [v|] eqn:Hv; [| eauto].
  specialize (Hall p ty v (list_elem_of_here _ _) Hv).
  destruct (castValue ty v); [simpl; eauto | discriminate].
Qed.

Lemma castPaths_absent schema obj doc k :
  castPaths schema obj = Ok doc -> obj !! k = None -> doc !! k = None.
Proof.
  intros Hc Hk. pose proof (castPaths_lookup schema obj doc k Hc) as Hl.
  rewrite Hk in Hl. by destruct (path_type schema k).
Qed.
End CastProperties.

(** *** Updating posts *)

Lemma castPaths_category_str `{Runtime} x :
  castPaths postSchema {[ "category" := VStr x ]} = Ok {[ "category" := VStr x ]}.
Proof. reflexivity. Qed.

(** C4: an update of an existing post whose body is the single field
    [category] leaves the users, every other post and every other path of
    that post as they were; when the value is a string the answer is 200
    and the post's category is that string. *)
Theorem put_category_changes_category_only `{Runtime} req db i doc v :
  params_id req = Some i ->
  posts db !! i = Some doc ->
  body req = {[ "category" := v ]} ->
  let r := put_api_posts_id req db in
  users r.2 = users db
  /\ (forall j, j <> i -> posts r.2 !! j = posts db !! j)
  /\ exists doc',
       posts r.2 !! i = Some doc'
       /\ (forall k, k <> "category" -> doc' !! k = doc !! k)
       /\ (forall x, v = VStr x ->
             r.1 = json_message 200 "Post updated successfully."
             /\ doc' !! "category" = Some (VStr x)).
Proof.
  intros Hid Hdoc Hbody. unfold put_api_posts_id, Post_findByIdAndUpdate.
  rewrite Hid, Hbody.
  destruct (castPaths postSchema {[ "category" := v ]}) as [upd|] eqn:Hc; simpl.
  - rewrite Hdoc. simpl. split; [done |]. split.
    + intros j Hj. by rewrite lookup_insert_ne.
    + exists (upd ∪ doc). rewrite lookup_insert_eq. split; [done |]. split.
      * intros k Hk. apply lookup_union_r.
        apply (castPaths_absent _ _ _ _ Hc). by rewrite lookup_singleton_ne.
      * intros x ->. rewrite castPaths_category_str in Hc. injection Hc as <-.
        split; [done |]. apply lookup_union_Some_l. by rewrite lookup_singleton_eq.
  - split; [done |]. split; [done |]. exists doc. split; [done |]. split; [done |].
    intros x ->. by rewrite castPaths_category_str in Hc.
Qed.

Lemma put_category_changes_category_only_witness :
  let r := put_api_posts_id (H := demoRuntime) setCategoryX twoPosts in
  posts r.2 !! 9%positive = Some otherPost
  /\ exists doc',
       posts r.2 !! 7%positive = Some doc'
       /\ doc' !! "title" = Some (VStr "Hello")
       /\ doc' !! "category" = Some (VStr "x").
Proof.
  destruct (put_category_changes_category_only (H := demoRuntime)
              setCategoryX twoPosts 7%positive guestPost (VStr "x"))
    as (_ & Hothers & doc' & Hdoc' & Hpaths & Hcat); [reflexivity ..|].
  split.
  - rewrite Hothers by discriminate. reflexivity.
  - exists doc'. split; [exact Hdoc' |]. split.
    + rewrite Hpaths by discriminate. reflexivity.
    + by apply (Hcat "x").
Defined.




Lemma delete_api_posts_id_spec_witness :
  let r := delete_api_posts_id (idRequest 7%positive ∅) twoPosts in
  r.1 = json_message 200 "Post deleted successfully."
  /\ (delete_api_posts_id (idRequest 7%positive ∅) r.2).1
     = json_error 404 "Post not found.".
Proof.
  destruct (delete_api_posts_id_spec (idRequest 7%positive ∅) twoPosts 7%positive)
    as [Hdel _]; [reflexivity |].
  destruct (Hdel guestPost) as (H200 & _ & _ & _ & H404); [reflexivity |].
  split; [exact H200 |]. by rewrite H404.
Defined.


(** *** Creating posts *)

Lemma object_of_lookup props k o :
  NoDup props.*1 -> (k, o) ∈ props -> object_of props !! k = o.
Proof.
  induction props as [|[k' o'] rest IH]; simpl; intros Hnd Hin.
  - by apply elem_of_nil in Hin.
  - apply NoDup_cons in Hnd as [Hk' Hnd].
    apply elem_of_cons in Hin as [[= <- <-] | Hin].
    + destruct o as [v|]; [by rewrite lookup_insert_eq |].
      clear IH. induction rest as [|[k2 o2] rest IH2]; simpl; [done |].
      apply not_elem_of_cons in Hk' as [Hne Hk'].
      apply NoDup_cons in Hnd as [_ Hnd].
      destruct o2; [rewrite lookup_insert_ne by done |]; by apply IH2.
    + assert (k' <> k).
      { intros ->. apply Hk'. apply list_elem_of_fmap. by exists (k, o). }
      destruct o'; [rewrite lookup_insert_ne by done |]; by apply IH.
Qed.

Lemma object_of_lookup_None props k :
  k ∉ props.*1 -> object_of props !! k = None.
Proof.
  induction props as [|[k' o'] rest IH]; simpl; intros Hk; [done |].
  apply not_elem_of_cons in Hk as [Hne Hk].
  destruct o'; [rewrite lookup_insert_ne by done |]; by apply IH.
Qed.

Lemma castValue_Mixed `{Runtime} v : castValue SMixed v = Ok v.
Proof. by destruct v. Qed.

Lemma fresh_post_id_free db : posts db !! fresh_post_id db = None.
Proof. apply not_elem_of_dom. unfold fresh_post_id. apply is_fresh. Qed.

Section CreationProperties.
Context `{Runtime}.

(** The three ways the creation handler ends: a missing field, the catch
    branch, or one document inserted under a fresh identity with the
    resolved author, answered by the confirmation message. *)
Lemma post_api_posts_cases req env db :
  let r := post_api_posts req env db in
  r = (json_error 400 "Missing required fields.", db)
  \/ r = (server_error, db)
  \/ exists author authorDoc doc,
       body req !! "author" = Some author
       /\ User_findOne User.username author db = Ok authorDoc
       /\ doc !! "author" = Some (authorValue authorDoc author)
       /\ r = (json_message 201 "Post created successfully.",
               mkDB (users db) (<[fresh_post_id db := doc]> (posts db))).
Proof.
  unfold post_api_posts.
  destruct (negb (truthy (body req !! "title")) || negb (truthy (body req !! "content"))
            || negb (truthy (body req !! "author"))
            || negb (truthy (body req !! "category"))); [by left |].
  destruct (body req !! "author") as [author|]; [| by left].
  destruct (User_findOne User.username author db) as [authorDoc|] eqn:Hfind;
    cbn [bind]; [| by right; left].
  unfold Post_save_new.
  match goal with |- context [castPaths postSchema (object_of ?p)] =>
    set (props := p) end.
  destruct (castPaths postSchema (object_of props)) as [doc|] eqn:Hc;
    cbn [bind]; [| by right; left].
  destruct (forallb _ postRequired); cbn [bind]; [| by right; left].
  right; right. exists author, authorDoc, (doc ∪ postDefaults env).
  split; [done |]. split; [done |]. split; [| done].
  apply lookup_union_Some_l.
  pose proof (castPaths_lookup _ _ _ "author" Hc) as Hl.
  rewrite (object_of_lookup props "author" (Some (authorValue authorDoc author)))
    in Hl.
  - cbn in Hl. destruct Hl as (v' & Hv' & ->).
    rewrite castValue_Mixed in Hv'. by injection Hv' as <-.
  - subst props. cbn [fmap list_fmap fst].
    apply (bool_decide_unpack _). vm_compute. reflexivity.
  - subst props. do 2 right. left.
Qed.

Lemma post_api_posts_missing req env db :
  truthy (body req !! "title") = false
  \/ truthy (body req !! "content") = false
  \/ truthy (body req !! "author") = false
  \/ truthy (body req !! "category") = false ->
  post_api_posts req env db = (json_error 400 "Missing required fields.", db).
Proof.
  intros Hm. unfold post_api_posts.
  destruct Hm as [-> | [-> | [-> | ->]]]; simpl; rewrite ?orb_true_r; done.
Qed.

Lemma required_ok_spec x :
  required_ok x = true -> exists s, x = Some (VStr s) /\ truthy x = true.
Proof. destruct x as [[]|]; try discriminate. intros Hs. eauto. Qed.

Lemma castable_Some ty x v :
  castable ty x = true -> x = Some v -> is_ok (castValue ty v) = true.
Proof. by intros Hc ->. Qed.

Lemma post_object_lookups
    (title content author category createdAt thumbnail images keywords
       subtitle authorGmail : option value) :
  let obj :=
    object_of
      [ ("title", title); ("content", content); ("author", author);
        ("category", category); ("createdAt", createdAt);
        ("thumbnail", thumbnail); ("images", images); ("keywords", keywords);
        ("subtitle", subtitle); ("authorGmail", authorGmail) ] in
  obj !! "title" = title /\ obj !! "content" = content
  /\ obj !! "author" = author /\ obj !! "category" = category
  /\ obj !! "createdAt" = createdAt /\ obj !! "thumbnail" = thumbnail
  /\ obj !! "images" = images /\ obj !! "keywords" = keywords
  /\ obj !! "subtitle" = subtitle /\ obj !! "authorGmail" = authorGmail
  /\ obj !! "updatedAt" = None.
Proof.
  intros obj. subst obj.
  repeat split;
    try (apply object_of_lookup;
         [ cbn [fmap list_fmap fst]; apply (bool_decide_unpack _);
           vm_compute; reflexivity
         | solve [ repeat first [ apply list_elem_of_here
                                | apply list_elem_of_further ] ] ]).
  apply object_of_lookup_None. cbn [fmap list_fmap fst].
  apply (bool_decide_unpack _). vm_compute. reflexivity.
Qed.

(** A typed body is stored: the handler answers 201. *)
Lemma post_api_posts_typed req env db :
  post_body_typed (body req) = true ->
  (post_api_posts req env db).1 = json_message 201 "Post created successfully.".
Proof.
  unfold post_body_typed. rewrite !andb_true_iff.
  intros (((((((((Ht & Hc) & Ha) & Hg) & Hd) & Hth) & Him) & Hk) & Hs) & Hag).
  destruct (required_ok_spec _ Ht) as (t & Et & Tt).
  destruct (required_ok_spec _ Hc) as (c & Ec & Tc).
  destruct (required_ok_spec _ Ha) as (a & Ea & Ta).
  destruct (required_ok_spec _ Hg) as (g & Eg & Tg).
  unfold post_api_posts. rewrite Tt, Tc, Ta, Tg. cbn [negb orb].
  rewrite Ea. cbn [User_findOne castString bind].
  unfold Post_save_new.
  match goal with |- context [castPaths postSchema (object_of ?p)] =>
    set (props := p) end.
  destruct (post_object_lookups (body req !! "title") (body req !! "content")
              (Some (authorValue
                       (find (fun u => String.eqb (User.username u) a) (users db))
                       (VStr a)))
              (body req !! "category")
              (if truthy (body req !! "createdAt")
               then newDate <$> body req !! "createdAt" else None)
              (body req !! "thumbnail") (body req !! "images")
              (body req !! "keywords") (body req !! "subtitle")
              (body req !! "authorGmail"))
    as (Lt & Lc & La & Lg & Ld & Lth & Lim & Lk & Ls & Lag & Lu).
  fold props in Lt, Lc, La, Lg, Ld, Lth, Lim, Lk, Ls, Lag, Lu.
  destruct (castPaths_ok postSchema (object_of props)) as [doc Hdoc].
  { intros k ty v Hin Hv.
    repeat (apply elem_of_cons in Hin as [[= -> ->] | Hin]);
      [ .. | by apply elem_of_nil in Hin ].
    - rewrite Lt, Et in Hv. by injection Hv as <-.
    - rewrite Lc, Ec in Hv. by injection Hv as <-.
    - rewrite castValue_Mixed. done.
    - rewrite Lg, Eg in Hv. by injection Hv as <-.
    - rewrite Ld in Hv. by apply (castable_Some _ _ _ Hd).
    - by rewrite Lu in Hv.
    - rewrite Lth in Hv. by apply (castable_Some _ _ _ Hth).
    - rewrite Lim in Hv. by apply (castable_Some _ _ _ Him).
    - rewrite Lk in Hv. by apply (castable_Some _ _ _ Hk).
    - rewrite Ls in Hv. by apply (castable_Some _ _ _ Hs).
    - rewrite Lag in Hv. by apply (castable_Some _ _ _ Hag). }
  rewrite Hdoc. cbn [bind].
  assert (Hreq : forallb (fun p => required_ok (doc !! p)) postRequired = true).
  { pose proof (castPaths_lookup _ _ _ "title" Hdoc) as H1.
    pose proof (castPaths_lookup _ _ _ "content" Hdoc) as H2.
    pose proof (castPaths_lookup _ _ _ "category" Hdoc) as H3.
    rewrite Lt, Et in H1. rewrite Lc, Ec in H2. rewrite Lg, Eg in H3.
    cbn in H1, H2, H3.
    destruct H1 as (v1 & [= <-] & D1), H2 as (v2 & [= <-] & D2),
             H3 as (v3 & [= <-] & D3).
    cbn [forallb postRequired]. rewrite D1, D2, D3, <- Et, <- Ec, <- Eg.
    by rewrite Ht, Hc, Hg. }
  rewrite Hreq. reflexivity.
Qed.
End CreationProperties.

(** C3: for a creation request whose author is a string, looking the author
    up among the users does not throw and leaves the users as they were;
    when the post is stored (201) its author path holds the identity of a
    stored user of that name if there is one, and the string itself if
    there is none. *)
Theorem post_api_posts_author `{Runtime} req env db a :
  body req !! "author" = Some (VStr a) ->
  let r := post_api_posts req env db in
  User_findOne User.username (VStr a) db
  = Ok (find (fun u => String.eqb (User.username u) a) (users db))
  /\ users r.2 = users db
  /\ (status r.1 = 201 ->
      exists doc,
        posts r.2 = <[fresh_post_id db := doc]> (posts db)
        /\ posts db !! fresh_post_id db = None
        /\ ((exists u, u ∈ users db /\ User.username u = a) ->
            exists u, u ∈ users db /\ User.username u = a
                      /\ doc !! "author" = Some (VId (User._id u)))
        /\ ((forall u, u ∈ users db -> User.username u <> a) ->
            doc !! "author" = Some (VStr a))).
Proof.
  intros Ha r. split; [reflexivity |].
  destruct (post_api_posts_cases req env db)
    as [Hr | [Hr | (author & authorDoc & doc & Hau & Hfind & Hdoc & Hr)]];
    fold r in Hr; rewrite Hr.
  - split; [done |]. discriminate.
  - split; [done |]. discriminate.
  - split; [done |]. intros _. exists doc.
    split; [done |]. split; [apply fresh_post_id_free |].
    rewrite Ha in Hau. injection Hau as <-.
    cbn in Hfind. injection Hfind as <-. split.
    + intros (u & Hin & Hu).
      assert (Hf : String.eqb (User.username u) a = true) by (by apply String.eqb_eq).
      destruct (find_elem (fun u => String.eqb (User.username u) a) _ _ Hin Hf)
        as (y & Hy & Hyin & Hya).
      exists y. split; [done |]. split; [by apply String.eqb_eq |].
      by rewrite Hdoc, Hy.
    + intros Hnone. rewrite Hdoc, find_no_elem; [done |].
      intros u Hin. apply String.eqb_neq. by apply Hnone.
Qed.

Lemma post_api_posts_author_witness :
  let r := post_api_posts (H := demoRuntime)
             (bodyRequest (postBody "alice")) demoEnv twoUsers in
  exists doc,
    posts r.2 = <[fresh_post_id twoUsers := doc]> (posts twoUsers)
    /\ exists u, u ∈ users twoUsers /\ User.username u = "alice"
                 /\ doc !! "author" = Some (VId (User._id u)).
Proof.
  destruct (post_api_posts_author (H := demoRuntime)
              (bodyRequest (postBody "alice")) demoEnv twoUsers "alice")
    as (_ & _ & Hstored); [reflexivity |].
  destruct Hstored as (doc & Hposts & _ & Hmatch & _); [vm_compute; reflexivity |].
  exists doc. split; [exact Hposts |].
  apply Hmatch. exists alice. split; [left | reflexivity].
Defined.

(** C9: a creation request in which title, content, author or category is
    missing answers 400 and stores nothing; one that carries the four as
    non-empty strings, with optional fields their paths read, answers 201;
    and a 201 carries the confirmation message alone (not the stored
    document, not its identity), with exactly one document stored under a
    fresh identity; any other answer leaves the store as it was. *)
Theorem post_api_posts_spec `{Runtime} req env db :
  let r := post_api_posts req env db in
  (truthy (body req !! "title") = false
   \/ truthy (body req !! "content") = false
   \/ truthy (body req !! "author") = false
   \/ truthy (body req !! "category") = false ->
   r = (json_error 400 "Missing required fields.", db))
  /\ (post_body_typed (body req) = true ->
      r.1 = json_message 201 "Post created successfully.")
  /\ (status r.1 = 201 ->
      r.1 = json_message 201 "Post created successfully."
      /\ obj_keys (payload r.1) = ["message"]
      /\ exists doc,
           r.2 = mkDB (users db) (<[fresh_post_id db := doc]> (posts db))
           /\ posts db !! fresh_post_id db = None
           /\ payload r.1 <> post_json (fresh_post_id db) doc)
  /\ (status r.1 <> 201 -> r.2 = db).
Proof.
  intros r. split; [apply post_api_posts_missing |].
  split; [apply post_api_posts_typed |].
  destruct (post_api_posts_cases req env db)
    as [Hr | [Hr | (author & authorDoc & doc & _ & _ & _ & Hr)]];
    fold r in Hr; rewrite Hr; split; try done.
  intros _. split; [done |]. split; [done |]. exists doc.
  split; [done |]. split; [apply fresh_post_id_free |].
  unfold post_json. intros [=].
Qed.

Lemma post_api_posts_spec_witness :
  (post_api_posts (H := demoRuntime)
     (bodyRequest (postBody "guest")) demoEnv twoUsers).1
  = json_message 201 "Post created successfully."
  /\ post_api_posts (H := demoRuntime)
       (bodyRequest (delete "title" (postBody "guest"))) demoEnv twoUsers
     = (json_error 400 "Missing required fields.", twoUsers).
Proof.
  split.
  - destruct (post_api_posts_spec (H := demoRuntime)
                (bodyRequest (postBody "guest")) demoEnv twoUsers)
      as (_ & Htyped & _).
    apply Htyped. vm_compute. reflexivity.
  - destruct (post_api_posts_spec (H := demoRuntime)
                (bodyRequest (delete "title" (postBody "guest"))) demoEnv twoUsers)
      as (Hmissing & _).
    apply Hmissing. left. vm_compute. reflexivity.
Defined.

(** ** Further properties of the handlers *)

Lemma find_app_fresh {A} (f : A -> bool) (l : list A) (x : A) :
  find f l = None -> f x = true -> find f (l ++ [x])%list = Some x.
Proof.
  induction l as [|y l IH]; simpl; intros Hn Hx.
  - by rewrite Hx.
  - destruct (f y); [discriminate | by apply IH].
Qed.

Lemma find_None_elem {A} (f : A -> bool) (l : list A) x :
  find f l = None -> x ∈ l -> f x = false.
Proof.
  induction l as [|y l IH]; simpl; intros Hn Hin.
  - by apply elem_of_nil in Hin.
  - destruct (f y) eqn:Hy; [discriminate |].
    apply elem_of_cons in Hin as [-> | Hin]; [done | by apply IH].
Qed.

Section RegistrationCases.
Context `{Runtime}.

(** The current registration handler either leaves the store as it was or
    has appended the user built from three non-empty strings that no stored
    user has as email or username. *)
Lemma register_cases req env db :
  let r := post_api_register req env db in
  (r.2 = db /\ status r.1 <> 201)
  \/ exists n e p a,
       body req !! "name" = Some (VStr n)
       /\ body req !! "email" = Some (VStr e)
       /\ body req !! "password" = Some (VStr p)
       /\ n <> "" /\ e <> "" /\ p <> ""
       /\ find (fun u => String.eqb (User.email u) e) (users db) = None
       /\ find (fun u => String.eqb (User.username u) n) (users db) = None
       /\ r = (mkResponse 201
                 (VObj [ ("message", VStr "User registered successfully.");
                         ("user", user_summary
                            (User.mk (fresh_user_id db) n e
                               (bcrypt_hash (salt env) p 10) a (now env))) ]),
               User_save (User.mk (fresh_user_id db) n e
                            (bcrypt_hash (salt env) p 10) a (now env)) db).
Proof.
  unfold post_api_register.
  presence (body req !! "name") Hn; [| by left].
  presence (body req !! "email") He; [| by left].
  presence (body req !! "password") Hp; [| by left].
  destruct x0; simpl; try (by left).
  match goal with |- context [if find ?f ?l is Some _ then _ else _] =>
    destruct (find f l) eqn:Hfe end; [by left |].
  destruct x; simpl; try (by left).
  match goal with |- context [if find ?f ?l is Some _ then _ else _] =>
    destruct (find f l) eqn:Hfn end; [by left |].
  destruct x1; simpl; try (by left).
  unfold new_User; simpl.
  destruct (castBoolean _) as [a|] eqn:Ha; simpl; [| by left].
  right. exists s0, s, s1, a.
  apply truthy_str in T, T0, T1. repeat split; done.
Qed.
End RegistrationCases.

(** X1: for a login request whose email is a string, the current handler
    answers 200 only when the password is a string that bcrypt's compare
    accepts against the hash of a stored user with that email; the body is
    then the confirmation with that user's summary; and every request with
    a non-empty string email and password is answered so when the first
    stored user with that email has a matching hash. *)
Theorem post_api_login_success `{Runtime} req db :
  (forall e,
     body req !! "email" = Some (VStr e) ->
     status (post_api_login req db) = 200 ->
     exists p u,
       body req !! "password" = Some (VStr p)
       /\ u ∈ users db /\ User.email u = e
       /\ bcrypt_compare p (User.password u) = true
       /\ post_api_login req db
          = mkResponse 200 (VObj [ ("message", VStr "Login successful.");
                                   ("user", user_summary u) ]))
  /\ (forall e p u,
        body req !! "email" = Some (VStr e) ->
        body req !! "password" = Some (VStr p) ->
        e <> "" -> p <> "" ->
        find (fun u => String.eqb (User.email u) e) (users db) = Some u ->
        bcrypt_compare p (User.password u) = true ->
        post_api_login req db
        = mkResponse 200 (VObj [ ("message", VStr "Login successful.");
                                 ("user", user_summary u) ])).
Proof.
  split.
  - intros e He. unfold post_api_login. rewrite He.
    destruct (truthy (Some (VStr e))); simpl; [| done].
    presence (body req !! "password") Hp.
    destruct (find _ (users db)) as [u|] eqn:Hf; simpl; [| done].
    destruct x; simpl; try done.
    destruct (bcrypt_compare s (User.password u)) eqn:Hc; simpl; [| done].
    intros _. exists s, u.
    apply find_some in Hf as [Hin Heq].
    repeat split; try done.
    + by apply list_elem_of_In.
    + by apply String.eqb_eq.
  - intros e p u He Hp Ne Np Hf Hc. unfold post_api_login. rewrite He, Hp.
    apply truthy_str in Ne, Np. rewrite Ne, Np. simpl.
    rewrite Hf. simpl. by rewrite Hc.
Qed.

Lemma post_api_login_success_witness :
  post_api_login (H := demoRuntime) loginAlice twoUsers
  = mkResponse 200 (VObj [ ("message", VStr "Login successful.");
                           ("user", user_summary alice) ])
  /\ exists u, u ∈ users twoUsers /\ User.email u = "alice@x.com".
Proof.
  destruct (post_api_login_success (H := demoRuntime) loginAlice twoUsers)
    as [Honly Hacc].
  split.
  - apply (Hacc "alice@x.com" "secret" alice); try reflexivity; discriminate.
  - destruct (Honly "alice@x.com") as (p & u & _ & Hin & Hu & _);
      [reflexivity | reflexivity |].
    exists u. split; [exact Hin | exact Hu].
Defined.

(** X2: a registration that answers 201 can log in: the same email and
    password, sent to the login handler on the store the registration
    left, answer 200 with the summary of the user just created, provided
    bcrypt's compare accepts the hash bcrypt made of that password. *)
Theorem register_then_login `{Runtime} req env db p :
  body req !! "password" = Some (VStr p) ->
  bcrypt_compare p (bcrypt_hash (salt env) p 10) = true ->
  let r := post_api_register req env db in
  status r.1 = 201 ->
  exists u,
    users r.2 = (users db ++ [u])%list
    /\ post_api_login req r.2
       = mkResponse 200 (VObj [ ("message", VStr "Login successful.");
                                ("user", user_summary u) ]).
Proof.
  intros Hp Hcmp r Hs.
  destruct (register_cases req env db)
    as [[_ Hne] | (n & e & p' & a & Hn & He & Hp' & Nn & Ne & Np & Hfe & Hfn & Hr)];
    [done |].
  fold r in Hr. rewrite Hr. rewrite Hp in Hp'. injection Hp' as <-.
  eexists. split; [reflexivity |].
  unfold post_api_login. rewrite He, Hp.
  apply truthy_str in Ne, Np. rewrite Ne, Np. simpl.
  rewrite (find_app_fresh _ _ _ Hfe); simpl.
  - by rewrite Hcmp.
  - by apply String.eqb_eq.
Qed.

Lemma register_then_login_witness :
  status (post_api_login (H := demoRuntime) registerCarol
            (post_api_register (H := demoRuntime) registerCarol demoEnv twoUsers).2)
  = 200.
Proof.
  destruct (register_then_login (H := demoRuntime) registerCarol demoEnv twoUsers "pw")
    as (u & _ & Hlogin); [reflexivity .. |].
  by rewrite Hlogin.
Defined.

(** X3: a registration that answered 201, sent again to the store it left,
    answers 400 "Email already registered." and stores nothing more. *)
Theorem register_twice `{Runtime} req env env' db :
  let r := post_api_register req env db in
  status r.1 = 201 ->
  post_api_register req env' r.2
  = (json_error 400 "Email already registered.", r.2).
Proof.
  intros r Hs.
  destruct (register_cases req env db)
    as [[_ Hne] | (n & e & p & a & Hn & He & Hp & Nn & Ne & Np & Hfe & Hfn & Hr)];
    [done |].
  fold r in Hr. rewrite Hr. simpl.
  unfold post_api_register. rewrite Hn, He, Hp.
  apply truthy_str in Nn, Ne, Np. rewrite Nn, Ne, Np. simpl.
  rewrite (find_app_fresh _ _ _ Hfe); [done |].
  by apply String.eqb_eq.
Qed.

Lemma register_twice_witness :
  status (post_api_register (H := demoRuntime) registerCarol demoEnv
            (post_api_register (H := demoRuntime) registerCarol demoEnv twoUsers).2).1
  = 400.
Proof.
  rewrite (register_twice (H := demoRuntime) registerCarol demoEnv demoEnv twoUsers);
    reflexivity.
Defined.

Lemma fresh_user_id_new db : fresh_user_id db ∉ User._id <$> users db.
Proof.
  unfold fresh_user_id. intros Hin.
  apply (is_fresh (list_to_set (User._id <$> users db) : gset ObjectId)).
  by apply elem_of_list_to_set.
Qed.

Lemma find_None_path (path : User.t -> string) s (l : list User.t) :
  find (fun u => String.eqb (path u) s) l = None -> s ∉ path <$> l.
Proof.
  intros Hf (u & -> & Hin)%list_elem_of_fmap.
  pose proof (find_None_elem _ _ _ Hf Hin) as Hfalse. simpl in Hfalse.
  by rewrite String.eqb_refl in Hfalse.
Qed.

Lemma NoDup_snoc {A} (l : list A) x : NoDup l -> x ∉ l -> NoDup (l ++ [x]).
Proof.
  intros Hl Hx. apply NoDup_app. split; [done |]. split.
  - intros y Hy Hin. apply list_elem_of_singleton in Hin as ->. done.
  - apply NoDup_singleton.
Qed.

(** X4: the current registration handler keeps the user collection free of
    duplicates: if emails, usernames and identities are pairwise distinct
    before a request, they are after it, whatever the request. *)
Theorem register_keeps_unique `{Runtime} req env db :
  NoDup (User.email <$> users db) ->
  NoDup (User.username <$> users db) ->
  NoDup (User._id <$> users db) ->
  let db' := (post_api_register req env db).2 in
  NoDup (User.email <$> users db')
  /\ NoDup (User.username <$> users db')
  /\ NoDup (User._id <$> users db').
Proof.
  intros He Hn Hi db'. subst db'.
  destruct (register_cases req env db)
    as [[-> _] | (n & e & p & a & _ & _ & _ & _ & _ & _ & Hfe & Hfn & ->)];
    [done |].
  simpl. rewrite !fmap_app. simpl. repeat split; apply NoDup_snoc; try done.
  - by apply find_None_path.
  - by apply find_None_path.
  - apply fresh_user_id_new.
Qed.

Lemma register_keeps_unique_witness :
  NoDup (User.email <$>
           users (post_api_register (H := demoRuntime)
                    registerCarol demoEnv twoUsers).2).
Proof.
  destruct (register_keeps_unique (H := demoRuntime) registerCarol demoEnv twoUsers)
    as [Hemail _]; [apply (bool_decide_unpack _); vm_compute; reflexivity .. |].
  exact Hemail.
Defined.



(** *** Listing, updating and deleting posts *)

Lemma post_json_inj i doc j doc' :
  post_json i doc = post_json j doc' -> i = j /\ doc = doc'.
Proof.
  unfold post_json. intros [= -> Hl]. split; [done |].
  apply map_to_list_inj. by rewrite Hl.
Qed.

Lemma posts_listing_elem (m : gmap ObjectId (gmap string value)) i doc :
  post_json i doc ∈ (fun p => post_json p.1 p.2) <$> map_to_list m
  <-> m !! i = Some doc.
Proof.
  rewrite list_elem_of_fmap. split.
  - intros ([j d] & Heq & Hin). simpl in Heq.
    apply post_json_inj in Heq as [-> ->]. by apply elem_of_map_to_list.
  - intros Hl. exists (i, doc). split; [done |]. by apply elem_of_map_to_list.
Qed.

(** X6: the post listing answers 200 with one record per stored post: a
    post's record is in the body exactly when the post is in the store, and
    the body has as many records as the store has posts. *)
Theorem get_api_posts_lists_store db :
  exists l,
    get_api_posts db = mkResponse 200 (VArr l)
    /\ length l = size (posts db)
    /\ forall i doc, post_json i doc ∈ l <-> posts db !! i = Some doc.
Proof.
  eexists. split; [reflexivity |]. split.
  - by rewrite length_fmap, length_map_to_list.
  - intros i doc. apply posts_listing_elem.
Qed.

(** X7: a post created with 201 is listed: the listing of the store the
    creation left carries the new document under its fresh identity, next to
    every post that was stored before, and one record more than before. *)
Theorem create_then_listed `{Runtime} req env db :
  let r := post_api_posts req env db in
  status r.1 = 201 ->
  exists doc l,
    posts r.2 !! fresh_post_id db = Some doc
    /\ get_api_posts r.2 = mkResponse 200 (VArr l)
    /\ post_json (fresh_post_id db) doc ∈ l
    /\ (forall i d, posts db !! i = Some d -> post_json i d ∈ l)
    /\ length l = S (size (posts db)).
Proof.
  intros r Hs.
  destruct (post_api_posts_cases req env db)
    as [Hr | [Hr | (author & authorDoc & doc & _ & _ & _ & Hr)]];
    fold r in Hr; rewrite Hr in Hs |- *; try discriminate.
  simpl. exists doc. eexists. split; [by rewrite lookup_insert_eq |].
  split; [reflexivity |]. split; [| split].
  - apply posts_listing_elem. simpl. by rewrite lookup_insert_eq.
  - intros i d Hd. apply posts_listing_elem. simpl.
    rewrite lookup_insert_ne; [done |].
    intros <-. by rewrite fresh_post_id_free in Hd.
  - rewrite length_fmap, length_map_to_list. simpl.
    apply map_size_insert_None, fresh_post_id_free.
Qed.

Lemma create_then_listed_witness :
  exists l,
    get_api_posts
      (post_api_posts (H := demoRuntime)
         (bodyRequest (postBody "guest")) demoEnv twoPosts).2
    = mkResponse 200 (VArr l)
    /\ length l = 3.
Proof.
  destruct (create_then_listed (H := demoRuntime)
              (bodyRequest (postBody "guest")) demoEnv twoPosts)
    as (doc & l & _ & Hl & _ & _ & Hlen); [vm_compute; reflexivity |].
  exists l. split; [exact Hl | exact Hlen].
Defined.

Lemma castValue_String_id `{Runtime} v v' :
  castValue SString v = Ok v' -> v' = v.
Proof. destruct v; simpl; intros [=]; done. Qed.

(** X8: what a created post holds besides what the caller sent: a title,
    content or category sent as a string is stored as that string;
    updatedAt is the server's clock whatever the body says; createdAt is the
    server's clock when the body's createdAt is missing or falsy; images is
    the empty array when the body has none. *)
Theorem create_applies_defaults `{Runtime} req env db :
  let r := post_api_posts req env db in
  status r.1 = 201 ->
  exists doc,
    posts r.2 !! fresh_post_id db = Some doc
    /\ (forall s, body req !! "title" = Some (VStr s) ->
          doc !! "title" = Some (VStr s))
    /\ (forall s, body req !! "content" = Some (VStr s) ->
          doc !! "content" = Some (VStr s))
    /\ (forall s, body req !! "category" = Some (VStr s) ->
          doc !! "category" = Some (VStr s))
    /\ doc !! "updatedAt" = Some (VDate (now env))
    /\ (truthy (body req !! "createdAt") = false ->
        doc !! "createdAt" = Some (VDate (now env)))
    /\ (body req !! "images" = None -> doc !! "images" = Some (VArr [])).
Proof.
  intros r. subst r. unfold post_api_posts.
  destruct (negb (truthy (body req !! "title")) || negb (truthy (body req !! "content"))
            || negb (truthy (body req !! "author"))
            || negb (truthy (body req !! "category"))) eqn:Hguard; [discriminate |].
  rewrite !orb_false_iff, !negb_false_iff in Hguard.
  destruct Hguard as [[[Tt Tc] Ta] Tg].
  destruct (body req !! "author") as [author|]; [| discriminate].
  destruct (User_findOne User.username author db) as [authorDoc|];
    cbn [bind]; [| discriminate].
  unfold Post_save_new.
  match goal with |- context [castPaths postSchema (object_of ?p)] =>
    set (props := p) end.
  destruct (post_object_lookups (body req !! "title") (body req !! "content")
              (Some (authorValue authorDoc author))
              (body req !! "category")
              (if truthy (body req !! "createdAt")
               then newDate <$> body req !! "createdAt" else None)
              (body req !! "thumbnail") (body req !! "images")
              (body req !! "keywords") (body req !! "subtitle")
              (body req !! "authorGmail"))
    as (Lt & Lc & La & Lg & Ld & Lth & Lim & Lk & Ls & Lag & Lu).
  fold props in Lt, Lc, La, Lg, Ld, Lth, Lim, Lk, Ls, Lag, Lu.
  destruct (castPaths postSchema (object_of props)) as [cast|] eqn:Hc;
    cbn [bind]; [| discriminate].
  destruct (forallb _ postRequired); cbn [bind]; [| discriminate].
  intros _. simpl. exists (cast ∪ postDefaults env).
  split; [by rewrite lookup_insert_eq |].
  assert (Hstr : forall k, path_type postSchema k = Some SString ->
                           object_of props !! k = body req !! k ->
                           truthy (body req !! k) = true ->
                           (cast ∪ postDefaults env) !! k = body req !! k).
  { intros k Hty Hobj Tk. destruct (truthy_defined _ Tk) as [v Hv].
    pose proof (castPaths_lookup _ _ _ k Hc) as Hl.
    rewrite Hty, Hobj, Hv in Hl. destruct Hl as (v' & Hv' & Hk).
    apply castValue_String_id in Hv' as ->.
    rewrite Hv. by apply lookup_union_Some_l. }
  split; [intros s Hs; rewrite <- Hs; by apply Hstr |].
  split; [intros s Hs; rewrite <- Hs; by apply Hstr |].
  split; [intros s Hs; rewrite <- Hs; by apply Hstr |].
  split; [| split].
  - rewrite lookup_union_r; [reflexivity |]. by apply (castPaths_absent _ _ _ _ Hc).
  - intros Tf. rewrite Tf in Ld.
    rewrite lookup_union_r; [reflexivity |]. by apply (castPaths_absent _ _ _ _ Hc).
  - intros Hi. rewrite Hi in Lim.
    rewrite lookup_union_r; [reflexivity |]. by apply (castPaths_absent _ _ _ _ Hc).
Qed.

Lemma create_applies_defaults_witness :
  exists doc,
    posts (post_api_posts (H := demoRuntime)
             (bodyRequest (<["updatedAt" := VNum 1]> (postBody "guest")))
             demoEnv twoPosts).2
      !! fresh_post_id twoPosts = Some doc
    /\ doc !! "updatedAt" = Some (VDate (now demoEnv)).
Proof.
  destruct (create_applies_defaults (H := demoRuntime)
              (bodyRequest (<["updatedAt" := VNum 1]> (postBody "guest")))
              demoEnv twoPosts)
    as (doc & Hdoc & _ & _ & _ & Hupd & _); [vm_compute; reflexivity |].
  exists doc. split; [exact Hdoc | exact Hupd].
Defined.

(** X9: sending the same update twice changes nothing more than sending it
    once: for a body made of paths of the Post schema, the second answer
    and the store it leaves are those of the first. *)
Theorem put_api_posts_id_idempotent `{Runtime} req db :
  plain_update (body req) ->
  put_api_posts_id req (put_api_posts_id req db).2 = put_api_posts_id req db.
Proof.
  intros _. unfold put_api_posts_id, Post_findByIdAndUpdate.
  destruct (params_id req) as [i|]; [| done].
  destruct (castPaths postSchema (body req)) as [upd|]; simpl; [| done].
  destruct (posts db !! i) as [doc|] eqn:Hdoc; simpl.
  - rewrite lookup_insert_eq. simpl.
    rewrite insert_insert_eq, (assoc (∪)), (idemp (∪) upd). done.
  - by rewrite Hdoc.
Qed.

Lemma put_api_posts_id_idempotent_witness :
  put_api_posts_id (H := demoRuntime) setCategoryX
    (put_api_posts_id (H := demoRuntime) setCategoryX twoPosts).2
  = put_api_posts_id (H := demoRuntime) setCategoryX twoPosts.
Proof.
  apply (put_api_posts_id_idempotent (H := demoRuntime) setCategoryX twoPosts).
  apply (bool_decide_unpack _). vm_compute. reflexivity.
Defined.

(** X10: an update and a deletion touch nothing but the addressed post: the
    users stay as they were, every post under another identity stays as it
    was, an update neither adds nor removes a post, and a deletion that does
    not answer 200 leaves the store as it was. *)
Theorem put_delete_frame `{Runtime} req db :
  (let r := put_api_posts_id req db in
   users r.2 = users db
   /\ dom (posts r.2) = dom (posts db)
   /\ forall j, params_id req <> Some j -> posts r.2 !! j = posts db !! j)
  /\ (let r := delete_api_posts_id req db in
      users r.2 = users db
      /\ (forall j, params_id req <> Some j -> posts r.2 !! j = posts db !! j)
      /\ (status r.1 <> 200 -> r.2 = db)).
Proof.
  split.
  - unfold put_api_posts_id, Post_findByIdAndUpdate.
    destruct (params_id req) as [i|]; [| done].
    destruct (castPaths postSchema (body req)) as [upd|]; simpl; [| done].
    destruct (posts db !! i) as [doc|] eqn:Hdoc; simpl; [| done].
    split; [done |]. split.
    + rewrite dom_insert_L. apply subseteq_union_1_L, singleton_subseteq_l.
      by apply elem_of_dom_2 in Hdoc.
    + intros j Hj. rewrite lookup_insert_ne; [done | congruence].
  - unfold delete_api_posts_id, Post_findByIdAndDelete.
    destruct (params_id req) as [i|]; [| done].
    destruct (posts db !! i) as [doc|] eqn:Hdoc; simpl; [| done].
    split; [done |]. split; [| done].
    intros j Hj. rewrite lookup_delete_ne; [done | congruence].
Qed.



(** *** User lookup and feedback *)

(** X12: the user lookup answers 400 without a truthy email in the query;
    for a query whose email is a non-empty string it answers 404 when no
    stored user has that email, and otherwise 200 with the username and
    email of the first user with that email; no other path of the user, in
    particular not the password, is in the body. *)
Theorem get_api_userinfo_spec req db :
  (truthy (query req !! "email") = false ->
   get_api_userinfo req db = json_error 400 "Email required.")
  /\ (forall e,
        query req !! "email" = Some (VStr e) -> e <> "" ->
        match find (fun u => String.eqb (User.email u) e) (users db) with
        | None => get_api_userinfo req db = json_error 404 "User not found."
        | Some u =>
            status (get_api_userinfo req db) = 200
            /\ (forall k, k ∈ obj_keys (payload (get_api_userinfo req db)) ->
                  k = "username" \/ k = "email")
            /\ (User.username u <> "" ->
                payload (get_api_userinfo req db)
                = VObj [ ("username", VStr (User.username u));
                         ("email", VStr (User.email u)) ])
        end).
Proof.
  split.
  - intros Hf. unfold get_api_userinfo. by rewrite Hf.
  - intros e He Ne. unfold get_api_userinfo. rewrite He.
    apply truthy_str in Ne. rewrite Ne. simpl.
    destruct (find _ (users db)) as [u|]; [| done]. simpl.
    unfold js_or_undefined, User_name.
    destruct (truthy (Some (VStr (User.username u)))) eqn:Tu; simpl.
    + split; [done |]. split; [| done].
      intros k Hk. apply elem_of_cons in Hk as [-> | Hk]; [by left |].
      apply list_elem_of_singleton in Hk as ->. by right.
    + split; [done |]. split.
      * intros k Hk. apply list_elem_of_singleton in Hk as ->. by right.
      * intros Nu. apply truthy_str in Nu. congruence.
Qed.

Lemma get_api_userinfo_spec_witness :
  payload (get_api_userinfo userinfoAlice twoUsers)
  = VObj [ ("username", VStr "alice"); ("email", VStr "alice@x.com") ].
Proof.
  destruct (get_api_userinfo_spec userinfoAlice twoUsers) as [_ Hfound].
  assert (Hne : "alice@x.com" <> "") by discriminate.
  pose proof (Hfound "alice@x.com" eq_refl Hne) as Hf.
  change (find _ (users twoUsers)) with (Some alice) in Hf.
  destruct Hf as (_ & _ & Hbody).
  apply Hbody. discriminate.
Defined.

(** X13: a feedback request with a non-empty name, email and message
    answers 201 with the success flag and appends the record under the
    server's date; the feedback listing of the resulting collection then
    carries that record and every earlier one. *)
Theorem feedback_round_trip req env feedback n e m :
  body req !! "name" = Some (VStr n) ->
  body req !! "email" = Some (VStr e) ->
  body req !! "message" = Some (VStr m) ->
  n <> "" -> e <> "" -> m <> "" ->
  let r := post_api_feedback req env feedback in
  let record := Feedback.mk n e m (now env) in
  r.1 = mkResponse 201
          (VObj [ ("success", VBool true);
                  ("message", VStr "Feedback submitted successfully.") ])
  /\ r.2 = (feedback ++ [record])%list
  /\ exists l,
       get_api_feedback r.2 = mkResponse 200 (VArr l)
       /\ feedback_json record ∈ l
       /\ (forall f, f ∈ feedback -> feedback_json f ∈ l)
       /\ length l = S (length feedback).
Proof.
  intros Hn He Hm Nn Ne Nm. unfold post_api_feedback. rewrite Hn, He, Hm.
  apply truthy_str in Nn, Ne, Nm. rewrite Nn, Ne, Nm. simpl.
  split; [done |]. split; [done |].
  eexists. split; [reflexivity |]. split; [| split].
  - apply list_elem_of_fmap. eexists. split; [reflexivity |].
    apply elem_of_app. right. left.
  - intros f Hf. apply list_elem_of_fmap. exists f. split; [done |].
    apply elem_of_app. by left.
  - rewrite length_fmap, length_app. simpl. lia.
Qed.

Lemma feedback_round_trip_witness :
  get_api_feedback (post_api_feedback feedbackA demoEnv []).2
  = mkResponse 200
      (VArr [ VObj [ ("name", VStr "A"); ("email", VStr "a@x.com");
                     ("message", VStr "hi"); ("date", VDate (now demoEnv)) ] ]).
Proof.
  destruct (feedback_round_trip feedbackA demoEnv [] "A" "a@x.com" "hi")
    as (_ & Hstore & _);
    [reflexivity | reflexivity | reflexivity
    | discriminate | discriminate | discriminate |].
  rewrite Hstore. reflexivity.
Defined.

(** X14: a feedback request that does not answer 201 stores nothing, and one
    in which name, email or message is missing answers 400. *)
Theorem feedback_rejected_stores_nothing req env feedback :
  let r := post_api_feedback req env feedback in
  (status r.1 <> 201 -> r.2 = feedback)
  /\ (truthy (body req !! "name") = false
       \/ truthy (body req !! "email") = false
       \/ truthy (body req !! "message") = false ->
      r = (json_error 400 "All fields are required.", feedback)).
Proof.
  intros r. subst r. unfold post_api_feedback. split.
  - destruct (negb _ || negb _ || negb _); [done |].
    destruct (body req !! "name") as [vn|], (body req !! "email") as [ve|],
             (body req !! "message") as [vm|]; try done.
    destruct (new_Feedback vn ve vm env); simpl; done.
  - intros [-> | [-> | ->]]; simpl; rewrite ?orb_true_r; done.
Qed.

Lemma feedback_rejected_stores_nothing_witness :
  post_api_feedback (bodyRequest {[ "name" := VStr "A" ]}) demoEnv []
  = (json_error 400 "All fields are required.", []).
Proof.
  destruct (feedback_rejected_stores_nothing
              (bodyRequest {[ "name" := VStr "A" ]}) demoEnv []) as [_ Hmiss].
  apply Hmiss. right. left. reflexivity.
Defined.

(** *** Across handlers *)

(** X15: a post created under the name of a user who has just registered
    refers to that user: after a registration answered 201 with name [n], a
    creation with author [n] that answers 201 stores the identity given to
    the new user as the post's author. *)
Theorem register_then_post_refers_to_user `{Runtime} reg env db post env' n :
  body reg !! "name" = Some (VStr n) ->
  body post !! "author" = Some (VStr n) ->
  let r := post_api_register reg env db in
  status r.1 = 201 ->
  let r' := post_api_posts post env' r.2 in
  status r'.1 = 201 ->
  exists doc,
    posts r'.2 !! fresh_post_id r.2 = Some doc
    /\ doc !! "author" = Some (VId (fresh_user_id db)).
Proof.
  intros Hname Hauthor r Hs.
  destruct (register_cases reg env db)
    as [[_ Hne] | (n' & e & p & a & Hn & _ & _ & _ & _ & _ & _ & Hfn & Hr)];
    [done |].
  fold r in Hr. rewrite Hname in Hn. injection Hn as <-.
  intros r' Hs'.
  destruct (post_api_posts_cases post env' r.2)
    as [Hr' | [Hr' | (author & authorDoc & doc & Hau & Hfind & Hdoc & Hr')]];
    fold r' in Hr'; rewrite Hr' in Hs' |- *; try discriminate.
  simpl. exists doc. split; [by rewrite lookup_insert_eq |].
  rewrite Hauthor in Hau. injection Hau as <-.
  rewrite Hr in Hfind. cbn in Hfind.
  rewrite (find_app_fresh _ _ _ Hfn) in Hfind; [| by apply String.eqb_eq].
  injection Hfind as <-. exact Hdoc.
Qed.

Lemma register_then_post_refers_to_user_witness :
  exists doc,
    posts (post_api_posts (H := demoRuntime)
             (bodyRequest (postBody "carol")) demoEnv
             (post_api_register (H := demoRuntime)
                registerCarol demoEnv twoUsers).2).2
      !! fresh_post_id
           (post_api_register (H := demoRuntime) registerCarol demoEnv twoUsers).2
    = Some doc
    /\ doc !! "author" = Some (VId 3%positive).
Proof.
  destruct (register_then_post_refers_to_user (H := demoRuntime)
              registerCarol demoEnv twoUsers (bodyRequest (postBody "carol"))
              demoEnv "carol")
    as (doc & Hdoc & Hauthor);
    [reflexivity | reflexivity | reflexivity | vm_compute; reflexivity |].
  exists doc. split; [exact Hdoc | exact Hauthor].
Defined.

(** X16: an update may rewrite the author of any existing post: a body with
    the single field [author] answers 200 and stores the supplied value as
    the post's author, whatever the author was, leaving the other paths as
    they were. *)
Theorem put_overwrites_author `{Runtime} req db i doc v :
  params_id req = Some i ->
  posts db !! i = Some doc ->
  body req = {[ "author" := v ]} ->
  let r := put_api_posts_id req db in
  r.1 = json_message 200 "Post updated successfully."
  /\ exists doc',
       posts r.2 !! i = Some doc'
       /\ doc' !! "author" = Some v
       /\ forall k, k <> "author" -> doc' !! k = doc !! k.
Proof.
  intros Hid Hdoc Hbody. unfold put_api_posts_id, Post_findByIdAndUpdate.
  rewrite Hid, Hbody.
  assert (Hc : castPaths postSchema {[ "author" := v ]} = Ok {[ "author" := v ]}).
  { unfold postSchema. cbn [castPaths].
    rewrite !lookup_singleton_ne by done. rewrite lookup_singleton_eq.
    cbn [bind]. rewrite castValue_Mixed. cbn [bind].
    rewrite !lookup_singleton_ne by done. cbn [bind].
    by rewrite insert_empty. }
  rewrite Hc. simpl. rewrite Hdoc. simpl. split; [done |].
  exists ({[ "author" := v ]} ∪ doc). rewrite lookup_insert_eq.
  split; [done |]. split.
  - apply lookup_union_Some_l. by rewrite lookup_singleton_eq.
  - intros k Hk. apply lookup_union_r. by rewrite lookup_singleton_ne.
Qed.

Lemma put_overwrites_author_witness :
  exists doc',
    posts (put_api_posts_id (H := demoRuntime)
             (idRequest 9%positive {[ "author" := VStr "mallory" ]}) twoPosts).2
      !! 9%positive = Some doc'
    /\ doc' !! "author" = Some (VStr "mallory").
Proof.
  destruct (put_overwrites_author (H := demoRuntime)
              (idRequest 9%positive {[ "author" := VStr "mallory" ]}) twoPosts
              9%positive otherPost (VStr "mallory"))
    as (_ & doc' & Hdoc' & Hauthor & _); [reflexivity ..|].
  exists doc'. split; [exact Hdoc' | exact Hauthor].
Defined.

(** *** The earlier variants *)

(** X17: in [part_000] nobody registers as an admin: a registration answered
    201 has appended one user whose isAdmin is false, whatever the body
    carries under [isAdmin]; a name and an email sent as strings are that
    user's username and email. *)
Theorem part000_register_never_admin `{Runtime} req env db :
  let r := Part000.post_api_register req env db in
  status r.1 = 201 ->
  exists u : User.t,
    users r.2 = (users db ++ [u])%list
    /\ User.isAdmin u = false
    /\ (forall n, body req !! "name" = Some (VStr n) -> User.username u = n)
    /\ (forall e, body req !! "email" = Some (VStr e) -> User.email u = e).
Proof.
  unfold Part000.post_api_register.
  presence (body req !! "name") Hn.
  presence (body req !! "email") He.
  presence (body req !! "password") Hp.
  destruct x0; simpl; try done.
  destruct (find _ (users db)); [done |].
  destruct x1; simpl; try done.
  unfold new_User.
  destruct x; simpl; try done.
  intros _. eexists. split; [reflexivity |]. split; [reflexivity |].
  split; intros ? [= <-]; reflexivity.
Qed.

Lemma part000_register_never_admin_witness :
  User.isAdmin <$>
    users (Part000.post_api_register (H := demoRuntime)
             registerCarolAdmin demoEnv noUsers).2
  = [false].
Proof.
  destruct (part000_register_never_admin (H := demoRuntime)
              registerCarolAdmin demoEnv noUsers)
    as (u & Hu & Hadmin & _); [reflexivity |].
  rewrite Hu. simpl. by rewrite Hadmin.
Defined.

(** X18: [part_001] checks the email only: a registration with a fresh
    email answers 201 and appends the user even when its name is the
    username of a stored user, so usernames need not stay distinct there. *)
Theorem part001_register_accepts_taken_username `{Runtime} req env db n e p :
  body req !! "name" = Some (VStr n) ->
  body req !! "email" = Some (VStr e) ->
  body req !! "password" = Some (VStr p) ->
  body req !! "isAdmin" = None ->
  n <> "" -> e <> "" -> p <> "" ->
  find (fun u => String.eqb (User.email u) e) (users db) = None ->
  let r := Part001.post_api_register req env db in
  status r.1 = 201
  /\ exists u : User.t,
       users r.2 = (users db ++ [u])%list /\ User.username u = n.
Proof.
  intros Hn He Hp Ha Nn Ne Np Hf. unfold Part001.post_api_register.
  rewrite Hn, He, Hp, Ha.
  apply truthy_str in Nn, Ne, Np. rewrite Nn, Ne, Np. simpl.
  rewrite Hf. simpl. split; [done |]. eexists. split; reflexivity.
Qed.

Lemma part001_register_accepts_taken_username_witness :
  User.username <$>
    users (Part001.post_api_register (H := demoRuntime)
             (registerBody "alice" "other@x.com" ∅) demoEnv twoUsers).2
  = ["alice"; "bob"; "alice"].
Proof.
  destruct (part001_register_accepts_taken_username (H := demoRuntime)
              (registerBody "alice" "other@x.com" ∅) demoEnv twoUsers
              "alice" "other@x.com" "pw")
    as (_ & u & Hu & Hname);
    [reflexivity | reflexivity | reflexivity | reflexivity
    | discriminate | discriminate | discriminate | reflexivity |].
  rewrite Hu, fmap_app. simpl. by rewrite Hname.
Defined.

Lemma put_delete_frame_witness :
  posts (put_api_posts_id (H := demoRuntime) setCategoryX twoPosts).2 !! 9%positive
  = Some otherPost.
Proof.
  destruct (put_delete_frame (H := demoRuntime) setCategoryX twoPosts)
    as [(_ & _ & Hframe) _].
  rewrite Hframe; [reflexivity | discriminate].
Defined.
